(** * Surface layout of the SWR gallium driver (swr_screen.cpp)

    A shallow embedding of [swr_texture_layout], [swr_displaytarget_layout],
    [mesa_to_swr_format] and [swr_resource_create].  C [unsigned] values are
    integers in [0, 2^32) and [size_t] values integers in [0, 2^64); every
    arithmetic step of the source that can wrap is reduced with [u32] or
    [u64]. *)

From Stdlib Require Import ZArith List Lia Bool.
Import ListNotations.
Open Scope Z_scope.

(** ** Formats

    The gallium formats of [mesa_to_swr_format]'s table (the mapped ones and
    the ones left commented out), plus a few other gallium formats
    (stencil-only, 64-bit float, ETC1).  The SWR formats are the images of
    that table and the generic formats of the LOD-offset fix-up. *)

Inductive pipe_format : Type :=
| PIPE_FORMAT_Z16_UNORM
| PIPE_FORMAT_Z32_FLOAT
| PIPE_FORMAT_Z24_UNORM_S8_UINT
| PIPE_FORMAT_Z24X8_UNORM
| PIPE_FORMAT_Z32_FLOAT_S8X24_UINT
| PIPE_FORMAT_A8_UNORM
| PIPE_FORMAT_A16_UNORM
| PIPE_FORMAT_A16_FLOAT
| PIPE_FORMAT_A32_FLOAT
| PIPE_FORMAT_B5G6R5_UNORM
| PIPE_FORMAT_B5G6R5_SRGB
| PIPE_FORMAT_B5G5R5A1_UNORM
| PIPE_FORMAT_B5G5R5X1_UNORM
| PIPE_FORMAT_B4G4R4A4_UNORM
| PIPE_FORMAT_B8G8R8A8_UNORM
| PIPE_FORMAT_B8G8R8A8_SRGB
| PIPE_FORMAT_B8G8R8X8_UNORM
| PIPE_FORMAT_B8G8R8X8_SRGB
| PIPE_FORMAT_R10G10B10A2_UNORM
| PIPE_FORMAT_R10G10B10A2_SNORM
| PIPE_FORMAT_R10G10B10A2_USCALED
| PIPE_FORMAT_R10G10B10A2_SSCALED
| PIPE_FORMAT_R10G10B10A2_UINT
| PIPE_FORMAT_R10G10B10X2_USCALED
| PIPE_FORMAT_B10G10R10A2_UNORM
| PIPE_FORMAT_B10G10R10A2_SNORM
| PIPE_FORMAT_B10G10R10A2_USCALED
| PIPE_FORMAT_B10G10R10A2_SSCALED
| PIPE_FORMAT_B10G10R10A2_UINT
| PIPE_FORMAT_B10G10R10X2_UNORM
| PIPE_FORMAT_R11G11B10_FLOAT
| PIPE_FORMAT_R32_FLOAT
| PIPE_FORMAT_R32G32_FLOAT
| PIPE_FORMAT_R32G32B32_FLOAT
| PIPE_FORMAT_R32G32B32A32_FLOAT
| PIPE_FORMAT_R32G32B32X32_FLOAT
| PIPE_FORMAT_R32_USCALED
| PIPE_FORMAT_R32G32_USCALED
| PIPE_FORMAT_R32G32B32_USCALED
| PIPE_FORMAT_R32G32B32A32_USCALED
| PIPE_FORMAT_R32_SSCALED
| PIPE_FORMAT_R32G32_SSCALED
| PIPE_FORMAT_R32G32B32_SSCALED
| PIPE_FORMAT_R32G32B32A32_SSCALED
| PIPE_FORMAT_R32_UINT
| PIPE_FORMAT_R32G32_UINT
| PIPE_FORMAT_R32G32B32_UINT
| PIPE_FORMAT_R32G32B32A32_UINT
| PIPE_FORMAT_R32_SINT
| PIPE_FORMAT_R32G32_SINT
| PIPE_FORMAT_R32G32B32_SINT
| PIPE_FORMAT_R32G32B32A32_SINT
| PIPE_FORMAT_R16_UNORM
| PIPE_FORMAT_R16G16_UNORM
| PIPE_FORMAT_R16G16B16_UNORM
| PIPE_FORMAT_R16G16B16A16_UNORM
| PIPE_FORMAT_R16G16B16X16_UNORM
| PIPE_FORMAT_R16_USCALED
| PIPE_FORMAT_R16G16_USCALED
| PIPE_FORMAT_R16G16B16_USCALED
| PIPE_FORMAT_R16G16B16A16_USCALED
| PIPE_FORMAT_R16_SNORM
| PIPE_FORMAT_R16G16_SNORM
| PIPE_FORMAT_R16G16B16_SNORM
| PIPE_FORMAT_R16G16B16A16_SNORM
| PIPE_FORMAT_R16_SSCALED
| PIPE_FORMAT_R16G16_SSCALED
| PIPE_FORMAT_R16G16B16_SSCALED
| PIPE_FORMAT_R16G16B16A16_SSCALED
| PIPE_FORMAT_R16_UINT
| PIPE_FORMAT_R16G16_UINT
| PIPE_FORMAT_R16G16B16_UINT
| PIPE_FORMAT_R16G16B16A16_UINT
| PIPE_FORMAT_R16_SINT
| PIPE_FORMAT_R16G16_SINT
| PIPE_FORMAT_R16G16B16_SINT
| PIPE_FORMAT_R16G16B16A16_SINT
| PIPE_FORMAT_R16_FLOAT
| PIPE_FORMAT_R16G16_FLOAT
| PIPE_FORMAT_R16G16B16_FLOAT
| PIPE_FORMAT_R16G16B16A16_FLOAT
| PIPE_FORMAT_R16G16B16X16_FLOAT
| PIPE_FORMAT_R8_UNORM
| PIPE_FORMAT_R8G8_UNORM
| PIPE_FORMAT_R8G8B8_UNORM
| PIPE_FORMAT_R8G8B8_SRGB
| PIPE_FORMAT_R8G8B8A8_UNORM
| PIPE_FORMAT_R8G8B8A8_SRGB
| PIPE_FORMAT_R8G8B8X8_UNORM
| PIPE_FORMAT_R8G8B8X8_SRGB
| PIPE_FORMAT_R8_USCALED
| PIPE_FORMAT_R8G8_USCALED
| PIPE_FORMAT_R8G8B8_USCALED
| PIPE_FORMAT_R8G8B8A8_USCALED
| PIPE_FORMAT_R8_SNORM
| PIPE_FORMAT_R8G8_SNORM
| PIPE_FORMAT_R8G8B8_SNORM
| PIPE_FORMAT_R8G8B8A8_SNORM
| PIPE_FORMAT_R8_SSCALED
| PIPE_FORMAT_R8G8_SSCALED
| PIPE_FORMAT_R8G8B8_SSCALED
| PIPE_FORMAT_R8G8B8A8_SSCALED
| PIPE_FORMAT_R8_UINT
| PIPE_FORMAT_R8G8_UINT
| PIPE_FORMAT_R8G8B8_UINT
| PIPE_FORMAT_R8G8B8A8_UINT
| PIPE_FORMAT_R8_SINT
| PIPE_FORMAT_R8G8_SINT
| PIPE_FORMAT_R8G8B8_SINT
| PIPE_FORMAT_R8G8B8A8_SINT
| PIPE_FORMAT_L8_UNORM
| PIPE_FORMAT_I8_UNORM
| PIPE_FORMAT_L8A8_UNORM
| PIPE_FORMAT_L16_UNORM
| PIPE_FORMAT_UYVY
| PIPE_FORMAT_L8_SRGB
| PIPE_FORMAT_L8A8_SRGB
| PIPE_FORMAT_DXT1_RGBA
| PIPE_FORMAT_DXT3_RGBA
| PIPE_FORMAT_DXT5_RGBA
| PIPE_FORMAT_DXT1_SRGBA
| PIPE_FORMAT_DXT3_SRGBA
| PIPE_FORMAT_DXT5_SRGBA
| PIPE_FORMAT_RGTC1_UNORM
| PIPE_FORMAT_RGTC1_SNORM
| PIPE_FORMAT_RGTC2_UNORM
| PIPE_FORMAT_RGTC2_SNORM
| PIPE_FORMAT_L16A16_UNORM
| PIPE_FORMAT_I16_UNORM
| PIPE_FORMAT_L16_FLOAT
| PIPE_FORMAT_L16A16_FLOAT
| PIPE_FORMAT_I16_FLOAT
| PIPE_FORMAT_L32_FLOAT
| PIPE_FORMAT_L32A32_FLOAT
| PIPE_FORMAT_I32_FLOAT
| PIPE_FORMAT_I8_UINT
| PIPE_FORMAT_L8_UINT
| PIPE_FORMAT_L8A8_UINT
| PIPE_FORMAT_I8_SINT
| PIPE_FORMAT_L8_SINT
| PIPE_FORMAT_L8A8_SINT
| PIPE_FORMAT_S8_UINT
| PIPE_FORMAT_X24S8_UINT
| PIPE_FORMAT_S8X24_UINT
| PIPE_FORMAT_X32_S8X24_UINT
| PIPE_FORMAT_R64_FLOAT
| PIPE_FORMAT_R64G64B64_FLOAT
| PIPE_FORMAT_ETC1_RGB8.

Inductive SWR_FORMAT : Type :=
| R16_UNORM
| R32_FLOAT
| R24_UNORM_X8_TYPELESS
| R32_FLOAT_X8X24_TYPELESS
| A8_UNORM
| A16_UNORM
| A16_FLOAT
| A32_FLOAT
| B5G6R5_UNORM
| B5G6R5_UNORM_SRGB
| B5G5R5A1_UNORM
| B5G5R5X1_UNORM
| B4G4R4A4_UNORM
| B8G8R8A8_UNORM
| B8G8R8A8_UNORM_SRGB
| B8G8R8X8_UNORM
| B8G8R8X8_UNORM_SRGB
| R10G10B10A2_UNORM
| R10G10B10A2_SNORM
| R10G10B10A2_USCALED
| R10G10B10A2_SSCALED
| R10G10B10A2_UINT
| R10G10B10X2_USCALED
| B10G10R10A2_UNORM
| B10G10R10A2_SNORM
| B10G10R10A2_USCALED
| B10G10R10A2_SSCALED
| B10G10R10A2_UINT
| B10G10R10X2_UNORM
| R11G11B10_FLOAT
| R32G32_FLOAT
| R32G32B32_FLOAT
| R32G32B32A32_FLOAT
| R32G32B32X32_FLOAT
| R32_USCALED
| R32G32_USCALED
| R32G32B32_USCALED
| R32G32B32A32_USCALED
| R32_SSCALED
| R32G32_SSCALED
| R32G32B32_SSCALED
| R32G32B32A32_SSCALED
| R32_UINT
| R32G32_UINT
| R32G32B32_UINT
| R32G32B32A32_UINT
| R32_SINT
| R32G32_SINT
| R32G32B32_SINT
| R32G32B32A32_SINT
| R16G16_UNORM
| R16G16B16_UNORM
| R16G16B16A16_UNORM
| R16G16B16X16_UNORM
| R16_USCALED
| R16G16_USCALED
| R16G16B16_USCALED
| R16G16B16A16_USCALED
| R16_SNORM
| R16G16_SNORM
| R16G16B16_SNORM
| R16G16B16A16_SNORM
| R16_SSCALED
| R16G16_SSCALED
| R16G16B16_SSCALED
| R16G16B16A16_SSCALED
| R16_UINT
| R16G16_UINT
| R16G16B16_UINT
| R16G16B16A16_UINT
| R16_SINT
| R16G16_SINT
| R16G16B16_SINT
| R16G16B16A16_SINT
| R16_FLOAT
| R16G16_FLOAT
| R16G16B16_FLOAT
| R16G16B16A16_FLOAT
| R16G16B16X16_FLOAT
| R8_UNORM
| R8G8_UNORM
| R8G8B8_UNORM
| R8G8B8_UNORM_SRGB
| R8G8B8A8_UNORM
| R8G8B8A8_UNORM_SRGB
| R8G8B8X8_UNORM
| R8G8B8X8_UNORM_SRGB
| R8_USCALED
| R8G8_USCALED
| R8G8B8_USCALED
| R8G8B8A8_USCALED
| R8_SNORM
| R8G8_SNORM
| R8G8B8_SNORM
| R8G8B8A8_SNORM
| R8_SSCALED
| R8G8_SSCALED
| R8G8B8_SSCALED
| R8G8B8A8_SSCALED
| R8_UINT
| R8G8_UINT
| R8G8B8_UINT
| R8G8B8A8_UINT
| R8_SINT
| R8G8_SINT
| R8G8B8_SINT
| R8G8B8A8_SINT
| L8_UNORM
| I8_UNORM
| L8A8_UNORM
| L16_UNORM
| YCRCB_SWAPUVY
| L8_UNORM_SRGB
| L8A8_UNORM_SRGB
| BC1_UNORM
| BC2_UNORM
| BC3_UNORM
| BC1_UNORM_SRGB
| BC2_UNORM_SRGB
| BC3_UNORM_SRGB
| BC4_UNORM
| BC4_SNORM
| BC5_UNORM
| BC5_SNORM
| L16A16_UNORM
| I16_UNORM
| L16_FLOAT
| L16A16_FLOAT
| I16_FLOAT
| L32_FLOAT
| L32A32_FLOAT
| I32_FLOAT
| I8_UINT
| L8_UINT
| L8A8_UINT
| I8_SINT
| L8_SINT
| L8A8_SINT.

(** The fields of [util_format_description] that the layout reads, with
    the values of gallium's format table: block size in bytes, block width
    and height in pixels, whether the format has a depth / stencil channel,
    and whether it is block-compressed. *)
Record format_desc := mk_desc {
  fd_blocksize : Z;
  fd_blockwidth : Z;
  fd_blockheight : Z;
  fd_has_depth : bool;
  fd_has_stencil : bool;
  fd_is_compressed : bool
}.

(** [mesa_to_swr_format]: the [std::map] lookup; [None] is the
    [(SWR_FORMAT)-1] returned for a format that is not in the map. *)
Definition mesa_to_swr_format (format : pipe_format) : option SWR_FORMAT :=
  match format with
  | PIPE_FORMAT_Z16_UNORM => Some R16_UNORM
  | PIPE_FORMAT_Z32_FLOAT => Some R32_FLOAT
  | PIPE_FORMAT_Z24_UNORM_S8_UINT => Some R24_UNORM_X8_TYPELESS
  | PIPE_FORMAT_Z24X8_UNORM => Some R24_UNORM_X8_TYPELESS
  | PIPE_FORMAT_Z32_FLOAT_S8X24_UINT => Some R32_FLOAT_X8X24_TYPELESS
  | PIPE_FORMAT_A8_UNORM => Some A8_UNORM
  | PIPE_FORMAT_A16_UNORM => Some A16_UNORM
  | PIPE_FORMAT_A16_FLOAT => Some A16_FLOAT
  | PIPE_FORMAT_A32_FLOAT => Some A32_FLOAT
  | PIPE_FORMAT_B5G6R5_UNORM => Some B5G6R5_UNORM
  | PIPE_FORMAT_B5G6R5_SRGB => Some B5G6R5_UNORM_SRGB
  | PIPE_FORMAT_B5G5R5A1_UNORM => Some B5G5R5A1_UNORM
  | PIPE_FORMAT_B5G5R5X1_UNORM => Some B5G5R5X1_UNORM
  | PIPE_FORMAT_B4G4R4A4_UNORM => Some B4G4R4A4_UNORM
  | PIPE_FORMAT_B8G8R8A8_UNORM => Some B8G8R8A8_UNORM
  | PIPE_FORMAT_B8G8R8A8_SRGB => Some B8G8R8A8_UNORM_SRGB
  | PIPE_FORMAT_B8G8R8X8_UNORM => Some B8G8R8X8_UNORM
  | PIPE_FORMAT_B8G8R8X8_SRGB => Some B8G8R8X8_UNORM_SRGB
  | PIPE_FORMAT_R10G10B10A2_UNORM => Some R10G10B10A2_UNORM
  | PIPE_FORMAT_R10G10B10A2_SNORM => Some R10G10B10A2_SNORM
  | PIPE_FORMAT_R10G10B10A2_USCALED => Some R10G10B10A2_USCALED
  | PIPE_FORMAT_R10G10B10A2_SSCALED => Some R10G10B10A2_SSCALED
  | PIPE_FORMAT_R10G10B10A2_UINT => Some R10G10B10A2_UINT
  | PIPE_FORMAT_R10G10B10X2_USCALED => Some R10G10B10X2_USCALED
  | PIPE_FORMAT_B10G10R10A2_UNORM => Some B10G10R10A2_UNORM
  | PIPE_FORMAT_B10G10R10A2_SNORM => Some B10G10R10A2_SNORM
  | PIPE_FORMAT_B10G10R10A2_USCALED => Some B10G10R10A2_USCALED
  | PIPE_FORMAT_B10G10R10A2_SSCALED => Some B10G10R10A2_SSCALED
  | PIPE_FORMAT_B10G10R10A2_UINT => Some B10G10R10A2_UINT
  | PIPE_FORMAT_B10G10R10X2_UNORM => Some B10G10R10X2_UNORM
  | PIPE_FORMAT_R11G11B10_FLOAT => Some R11G11B10_FLOAT
  | PIPE_FORMAT_R32_FLOAT => Some R32_FLOAT
  | PIPE_FORMAT_R32G32_FLOAT => Some R32G32_FLOAT
  | PIPE_FORMAT_R32G32B32_FLOAT => Some R32G32B32_FLOAT
  | PIPE_FORMAT_R32G32B32A32_FLOAT => Some R32G32B32A32_FLOAT
  | PIPE_FORMAT_R32G32B32X32_FLOAT => Some R32G32B32X32_FLOAT
  | PIPE_FORMAT_R32_USCALED => Some R32_USCALED
  | PIPE_FORMAT_R32G32_USCALED => Some R32G32_USCALED
  | PIPE_FORMAT_R32G32B32_USCALED => Some R32G32B32_USCALED
  | PIPE_FORMAT_R32G32B32A32_USCALED => Some R32G32B32A32_USCALED
  | PIPE_FORMAT_R32_SSCALED => Some R32_SSCALED
  | PIPE_FORMAT_R32G32_SSCALED => Some R32G32_SSCALED
  | PIPE_FORMAT_R32G32B32_SSCALED => Some R32G32B32_SSCALED
  | PIPE_FORMAT_R32G32B32A32_SSCALED => Some R32G32B32A32_SSCALED
  | PIPE_FORMAT_R32_UINT => Some R32_UINT
  | PIPE_FORMAT_R32G32_UINT => Some R32G32_UINT
  | PIPE_FORMAT_R32G32B32_UINT => Some R32G32B32_UINT
  | PIPE_FORMAT_R32G32B32A32_UINT => Some R32G32B32A32_UINT
  | PIPE_FORMAT_R32_SINT => Some R32_SINT
  | PIPE_FORMAT_R32G32_SINT => Some R32G32_SINT
  | PIPE_FORMAT_R32G32B32_SINT => Some R32G32B32_SINT
  | PIPE_FORMAT_R32G32B32A32_SINT => Some R32G32B32A32_SINT
  | PIPE_FORMAT_R16_UNORM => Some R16_UNORM
  | PIPE_FORMAT_R16G16_UNORM => Some R16G16_UNORM
  | PIPE_FORMAT_R16G16B16_UNORM => Some R16G16B16_UNORM
  | PIPE_FORMAT_R16G16B16A16_UNORM => Some R16G16B16A16_UNORM
  | PIPE_FORMAT_R16G16B16X16_UNORM => Some R16G16B16X16_UNORM
  | PIPE_FORMAT_R16_USCALED => Some R16_USCALED
  | PIPE_FORMAT_R16G16_USCALED => Some R16G16_USCALED
  | PIPE_FORMAT_R16G16B16_USCALED => Some R16G16B16_USCALED
  | PIPE_FORMAT_R16G16B16A16_USCALED => Some R16G16B16A16_USCALED
  | PIPE_FORMAT_R16_SNORM => Some R16_SNORM
  | PIPE_FORMAT_R16G16_SNORM => Some R16G16_SNORM
  | PIPE_FORMAT_R16G16B16_SNORM => Some R16G16B16_SNORM
  | PIPE_FORMAT_R16G16B16A16_SNORM => Some R16G16B16A16_SNORM
  | PIPE_FORMAT_R16_SSCALED => Some R16_SSCALED
  | PIPE_FORMAT_R16G16_SSCALED => Some R16G16_SSCALED
  | PIPE_FORMAT_R16G16B16_SSCALED => Some R16G16B16_SSCALED
  | PIPE_FORMAT_R16G16B16A16_SSCALED => Some R16G16B16A16_SSCALED
  | PIPE_FORMAT_R16_UINT => Some R16_UINT
  | PIPE_FORMAT_R16G16_UINT => Some R16G16_UINT
  | PIPE_FORMAT_R16G16B16_UINT => Some R16G16B16_UINT
  | PIPE_FORMAT_R16G16B16A16_UINT => Some R16G16B16A16_UINT
  | PIPE_FORMAT_R16_SINT => Some R16_SINT
  | PIPE_FORMAT_R16G16_SINT => Some R16G16_SINT
  | PIPE_FORMAT_R16G16B16_SINT => Some R16G16B16_SINT
  | PIPE_FORMAT_R16G16B16A16_SINT => Some R16G16B16A16_SINT
  | PIPE_FORMAT_R16_FLOAT => Some R16_FLOAT
  | PIPE_FORMAT_R16G16_FLOAT => Some R16G16_FLOAT
  | PIPE_FORMAT_R16G16B16_FLOAT => Some R16G16B16_FLOAT
  | PIPE_FORMAT_R16G16B16A16_FLOAT => Some R16G16B16A16_FLOAT
  | PIPE_FORMAT_R16G16B16X16_FLOAT => Some R16G16B16X16_FLOAT
  | PIPE_FORMAT_R8_UNORM => Some R8_UNORM
  | PIPE_FORMAT_R8G8_UNORM => Some R8G8_UNORM
  | PIPE_FORMAT_R8G8B8_UNORM => Some R8G8B8_UNORM
  | PIPE_FORMAT_R8G8B8_SRGB => Some R8G8B8_UNORM_SRGB
  | PIPE_FORMAT_R8G8B8A8_UNORM => Some R8G8B8A8_UNORM
  | PIPE_FORMAT_R8G8B8A8_SRGB => Some R8G8B8A8_UNORM_SRGB
  | PIPE_FORMAT_R8G8B8X8_UNORM => Some R8G8B8X8_UNORM
  | PIPE_FORMAT_R8G8B8X8_SRGB => Some R8G8B8X8_UNORM_SRGB
  | PIPE_FORMAT_R8_USCALED => Some R8_USCALED
  | PIPE_FORMAT_R8G8_USCALED => Some R8G8_USCALED
  | PIPE_FORMAT_R8G8B8_USCALED => Some R8G8B8_USCALED
  | PIPE_FORMAT_R8G8B8A8_USCALED => Some R8G8B8A8_USCALED
  | PIPE_FORMAT_R8_SNORM => Some R8_SNORM
  | PIPE_FORMAT_R8G8_SNORM => Some R8G8_SNORM
  | PIPE_FORMAT_R8G8B8_SNORM => Some R8G8B8_SNORM
  | PIPE_FORMAT_R8G8B8A8_SNORM => Some R8G8B8A8_SNORM
  | PIPE_FORMAT_R8_SSCALED => Some R8_SSCALED
  | PIPE_FORMAT_R8G8_SSCALED => Some R8G8_SSCALED
  | PIPE_FORMAT_R8G8B8_SSCALED => Some R8G8B8_SSCALED
  | PIPE_FORMAT_R8G8B8A8_SSCALED => Some R8G8B8A8_SSCALED
  | PIPE_FORMAT_R8_UINT => Some R8_UINT
  | PIPE_FORMAT_R8G8_UINT => Some R8G8_UINT
  | PIPE_FORMAT_R8G8B8_UINT => Some R8G8B8_UINT
  | PIPE_FORMAT_R8G8B8A8_UINT => Some R8G8B8A8_UINT
  | PIPE_FORMAT_R8_SINT => Some R8_SINT
  | PIPE_FORMAT_R8G8_SINT => Some R8G8_SINT
  | PIPE_FORMAT_R8G8B8_SINT => Some R8G8B8_SINT
  | PIPE_FORMAT_R8G8B8A8_SINT => Some R8G8B8A8_SINT
  | _ => None
  end.

Definition util_format_description (format : pipe_format) : format_desc :=
  match format with
  | PIPE_FORMAT_Z16_UNORM => mk_desc 2 1 1 true false false
  | PIPE_FORMAT_Z32_FLOAT => mk_desc 4 1 1 true false false
  | PIPE_FORMAT_Z24_UNORM_S8_UINT => mk_desc 4 1 1 true true false
  | PIPE_FORMAT_Z24X8_UNORM => mk_desc 4 1 1 true false false
  | PIPE_FORMAT_Z32_FLOAT_S8X24_UINT => mk_desc 8 1 1 true true false
  | PIPE_FORMAT_A8_UNORM => mk_desc 1 1 1 false false false
  | PIPE_FORMAT_A16_UNORM => mk_desc 2 1 1 false false false
  | PIPE_FORMAT_A16_FLOAT => mk_desc 2 1 1 false false false
  | PIPE_FORMAT_A32_FLOAT => mk_desc 4 1 1 false false false
  | PIPE_FORMAT_B5G6R5_UNORM => mk_desc 2 1 1 false false false
  | PIPE_FORMAT_B5G6R5_SRGB => mk_desc 2 1 1 false false false
  | PIPE_FORMAT_B5G5R5A1_UNORM => mk_desc 2 1 1 false false false
  | PIPE_FORMAT_B5G5R5X1_UNORM => mk_desc 2 1 1 false false false
  | PIPE_FORMAT_B4G4R4A4_UNORM => mk_desc 2 1 1 false false false
  | PIPE_FORMAT_B8G8R8A8_UNORM => mk_desc 4 1 1 false false false
  | PIPE_FORMAT_B8G8R8A8_SRGB => mk_desc 4 1 1 false false false
  | PIPE_FORMAT_B8G8R8X8_UNORM => mk_desc 4 1 1 false false false
  | PIPE_FORMAT_B8G8R8X8_SRGB => mk_desc 4 1 1 false false false
  | PIPE_FORMAT_R10G10B10A2_UNORM => mk_desc 4 1 1 false false false
  | PIPE_FORMAT_R10G10B10A2_SNORM => mk_desc 4 1 1 false false false
  | PIPE_FORMAT_R10G10B10A2_USCALED => mk_desc 4 1 1 false false false
  | PIPE_FORMAT_R10G10B10A2_SSCALED => mk_desc 4 1 1 false false false
  | PIPE_FORMAT_R10G10B10A2_UINT => mk_desc 4 1 1 false false false
  | PIPE_FORMAT_R10G10B10X2_USCALED => mk_desc 4 1 1 false false false
  | PIPE_FORMAT_B10G10R10A2_UNORM => mk_desc 4 1 1 false false false
  | PIPE_FORMAT_B10G10R10A2_SNORM => mk_desc 4 1 1 false false false
  | PIPE_FORMAT_B10G10R10A2_USCALED => mk_desc 4 1 1 false false false
  | PIPE_FORMAT_B10G10R10A2_SSCALED => mk_desc 4 1 1 false false false
  | PIPE_FORMAT_B10G10R10A2_UINT => mk_desc 4 1 1 false false false
  | PIPE_FORMAT_B10G10R10X2_UNORM => mk_desc 4 1 1 false false false
  | PIPE_FORMAT_R11G11B10_FLOAT => mk_desc 4 1 1 false false false
  | PIPE_FORMAT_R32_FLOAT => mk_desc 4 1 1 false false false
  | PIPE_FORMAT_R32G32_FLOAT => mk_desc 8 1 1 false false false
  | PIPE_FORMAT_R32G32B32_FLOAT => mk_desc 12 1 1 false false false
  | PIPE_FORMAT_R32G32B32A32_FLOAT => mk_desc 16 1 1 false false false
  | PIPE_FORMAT_R32G32B32X32_FLOAT => mk_desc 16 1 1 false false false
  | PIPE_FORMAT_R32_USCALED => mk_desc 4 1 1 false false false
  | PIPE_FORMAT_R32G32_USCALED => mk_desc 8 1 1 false false false
  | PIPE_FORMAT_R32G32B32_USCALED => mk_desc 12 1 1 false false false
  | PIPE_FORMAT_R32G32B32A32_USCALED => mk_desc 16 1 1 false false false
  | PIPE_FORMAT_R32_SSCALED => mk_desc 4 1 1 false false false
  | PIPE_FORMAT_R32G32_SSCALED => mk_desc 8 1 1 false false false
  | PIPE_FORMAT_R32G32B32_SSCALED => mk_desc 12 1 1 false false false
  | PIPE_FORMAT_R32G32B32A32_SSCALED => mk_desc 16 1 1 false false false
  | PIPE_FORMAT_R32_UINT => mk_desc 4 1 1 false false false
  | PIPE_FORMAT_R32G32_UINT => mk_desc 8 1 1 false false false
  | PIPE_FORMAT_R32G32B32_UINT => mk_desc 12 1 1 false false false
  | PIPE_FORMAT_R32G32B32A32_UINT => mk_desc 16 1 1 false false false
  | PIPE_FORMAT_R32_SINT => mk_desc 4 1 1 false false false
  | PIPE_FORMAT_R32G32_SINT => mk_desc 8 1 1 false false false
  | PIPE_FORMAT_R32G32B32_SINT => mk_desc 12 1 1 false false false
  | PIPE_FORMAT_R32G32B32A32_SINT => mk_desc 16 1 1 false false false
  | PIPE_FORMAT_R16_UNORM => mk_desc 2 1 1 false false false
  | PIPE_FORMAT_R16G16_UNORM => mk_desc 4 1 1 false false false
  | PIPE_FORMAT_R16G16B16_UNORM => mk_desc 6 1 1 false false false
  | PIPE_FORMAT_R16G16B16A16_UNORM => mk_desc 8 1 1 false false false
  | PIPE_FORMAT_R16G16B16X16_UNORM => mk_desc 8 1 1 false false false
  | PIPE_FORMAT_R16_USCALED => mk_desc 2 1 1 false false false
  | PIPE_FORMAT_R16G16_USCALED => mk_desc 4 1 1 false false false
  | PIPE_FORMAT_R16G16B16_USCALED => mk_desc 6 1 1 false false false
  | PIPE_FORMAT_R16G16B16A16_USCALED => mk_desc 8 1 1 false false false
  | PIPE_FORMAT_R16_SNORM => mk_desc 2 1 1 false false false
  | PIPE_FORMAT_R16G16_SNORM => mk_desc 4 1 1 false false false
  | PIPE_FORMAT_R16G16B16_SNORM => mk_desc 6 1 1 false false false
  | PIPE_FORMAT_R16G16B16A16_SNORM => mk_desc 8 1 1 false false false
  | PIPE_FORMAT_R16_SSCALED => mk_desc 2 1 1 false false false
  | PIPE_FORMAT_R16G16_SSCALED => mk_desc 4 1 1 false false false
  | PIPE_FORMAT_R16G16B16_SSCALED => mk_desc 6 1 1 false false false
  | PIPE_FORMAT_R16G16B16A16_SSCALED => mk_desc 8 1 1 false false false
  | PIPE_FORMAT_R16_UINT => mk_desc 2 1 1 false false false
  | PIPE_FORMAT_R16G16_UINT => mk_desc 4 1 1 false false false
  | PIPE_FORMAT_R16G16B16_UINT => mk_desc 6 1 1 false false false
  | PIPE_FORMAT_R16G16B16A16_UINT => mk_desc 8 1 1 false false false
  | PIPE_FORMAT_R16_SINT => mk_desc 2 1 1 false false false
  | PIPE_FORMAT_R16G16_SINT => mk_desc 4 1 1 false false false
  | PIPE_FORMAT_R16G16B16_SINT => mk_desc 6 1 1 false false false
  | PIPE_FORMAT_R16G16B16A16_SINT => mk_desc 8 1 1 false false false
  | PIPE_FORMAT_R16_FLOAT => mk_desc 2 1 1 false false false
  | PIPE_FORMAT_R16G16_FLOAT => mk_desc 4 1 1 false false false
  | PIPE_FORMAT_R16G16B16_FLOAT => mk_desc 6 1 1 false false false
  | PIPE_FORMAT_R16G16B16A16_FLOAT => mk_desc 8 1 1 false false false
  | PIPE_FORMAT_R16G16B16X16_FLOAT => mk_desc 8 1 1 false false false
  | PIPE_FORMAT_R8_UNORM => mk_desc 1 1 1 false false false
  | PIPE_FORMAT_R8G8_UNORM => mk_desc 2 1 1 false false false
  | PIPE_FORMAT_R8G8B8_UNORM => mk_desc 3 1 1 false false false
  | PIPE_FORMAT_R8G8B8_SRGB => mk_desc 3 1 1 false false false
  | PIPE_FORMAT_R8G8B8A8_UNORM => mk_desc 4 1 1 false false false
  | PIPE_FORMAT_R8G8B8A8_SRGB => mk_desc 4 1 1 false false false
  | PIPE_FORMAT_R8G8B8X8_UNORM => mk_desc 4 1 1 false false false
  | PIPE_FORMAT_R8G8B8X8_SRGB => mk_desc 4 1 1 false false false
  | PIPE_FORMAT_R8_USCALED => mk_desc 1 1 1 false false false
  | PIPE_FORMAT_R8G8_USCALED => mk_desc 2 1 1 false false false
  | PIPE_FORMAT_R8G8B8_USCALED => mk_desc 3 1 1 false false false
  | PIPE_FORMAT_R8G8B8A8_USCALED => mk_desc 4 1 1 false false false
  | PIPE_FORMAT_R8_SNORM => mk_desc 1 1 1 false false false
  | PIPE_FORMAT_R8G8_SNORM => mk_desc 2 1 1 false false false
  | PIPE_FORMAT_R8G8B8_SNORM => mk_desc 3 1 1 false false false
  | PIPE_FORMAT_R8G8B8A8_SNORM => mk_desc 4 1 1 false false false
  | PIPE_FORMAT_R8_SSCALED => mk_desc 1 1 1 false false false
  | PIPE_FORMAT_R8G8_SSCALED => mk_desc 2 1 1 false false false
  | PIPE_FORMAT_R8G8B8_SSCALED => mk_desc 3 1 1 false false false
  | PIPE_FORMAT_R8G8B8A8_SSCALED => mk_desc 4 1 1 false false false
  | PIPE_FORMAT_R8_UINT => mk_desc 1 1 1 false false false
  | PIPE_FORMAT_R8G8_UINT => mk_desc 2 1 1 false false false
  | PIPE_FORMAT_R8G8B8_UINT => mk_desc 3 1 1 false false false
  | PIPE_FORMAT_R8G8B8A8_UINT => mk_desc 4 1 1 false false false
  | PIPE_FORMAT_R8_SINT => mk_desc 1 1 1 false false false
  | PIPE_FORMAT_R8G8_SINT => mk_desc 2 1 1 false false false
  | PIPE_FORMAT_R8G8B8_SINT => mk_desc 3 1 1 false false false
  | PIPE_FORMAT_R8G8B8A8_SINT => mk_desc 4 1 1 false false false
  | PIPE_FORMAT_L8_UNORM => mk_desc 1 1 1 false false false
  | PIPE_FORMAT_I8_UNORM => mk_desc 1 1 1 false false false
  | PIPE_FORMAT_L8A8_UNORM => mk_desc 2 1 1 false false false
  | PIPE_FORMAT_L16_UNORM => mk_desc 2 1 1 false false false
  | PIPE_FORMAT_UYVY => mk_desc 4 2 1 false false false
  | PIPE_FORMAT_L8_SRGB => mk_desc 1 1 1 false false false
  | PIPE_FORMAT_L8A8_SRGB => mk_desc 2 1 1 false false false
  | PIPE_FORMAT_DXT1_RGBA => mk_desc 8 4 4 false false true
  | PIPE_FORMAT_DXT3_RGBA => mk_desc 16 4 4 false false true
  | PIPE_FORMAT_DXT5_RGBA => mk_desc 16 4 4 false false true
  | PIPE_FORMAT_DXT1_SRGBA => mk_desc 8 4 4 false false true
  | PIPE_FORMAT_DXT3_SRGBA => mk_desc 16 4 4 false false true
  | PIPE_FORMAT_DXT5_SRGBA => mk_desc 16 4 4 false false true
  | PIPE_FORMAT_RGTC1_UNORM => mk_desc 8 4 4 false false true
  | PIPE_FORMAT_RGTC1_SNORM => mk_desc 8 4 4 false false true
  | PIPE_FORMAT_RGTC2_UNORM => mk_desc 16 4 4 false false true
  | PIPE_FORMAT_RGTC2_SNORM => mk_desc 16 4 4 false false true
  | PIPE_FORMAT_L16A16_UNORM => mk_desc 4 1 1 false false false
  | PIPE_FORMAT_I16_UNORM => mk_desc 2 1 1 false false false
  | PIPE_FORMAT_L16_FLOAT => mk_desc 2 1 1 false false false
  | PIPE_FORMAT_L16A16_FLOAT => mk_desc 4 1 1 false false false
  | PIPE_FORMAT_I16_FLOAT => mk_desc 2 1 1 false false false
  | PIPE_FORMAT_L32_FLOAT => mk_desc 4 1 1 false false false
  | PIPE_FORMAT_L32A32_FLOAT => mk_desc 8 1 1 false false false
  | PIPE_FORMAT_I32_FLOAT => mk_desc 4 1 1 false false false
  | PIPE_FORMAT_I8_UINT => mk_desc 1 1 1 false false false
  | PIPE_FORMAT_L8_UINT => mk_desc 1 1 1 false false false
  | PIPE_FORMAT_L8A8_UINT => mk_desc 2 1 1 false false false
  | PIPE_FORMAT_I8_SINT => mk_desc 1 1 1 false false false
  | PIPE_FORMAT_L8_SINT => mk_desc 1 1 1 false false false
  | PIPE_FORMAT_L8A8_SINT => mk_desc 2 1 1 false false false
  | PIPE_FORMAT_S8_UINT => mk_desc 1 1 1 false true false
  | PIPE_FORMAT_X24S8_UINT => mk_desc 4 1 1 false true false
  | PIPE_FORMAT_S8X24_UINT => mk_desc 4 1 1 false true false
  | PIPE_FORMAT_X32_S8X24_UINT => mk_desc 8 1 1 false true false
  | PIPE_FORMAT_R64_FLOAT => mk_desc 8 1 1 false false false
  | PIPE_FORMAT_R64G64B64_FLOAT => mk_desc 24 1 1 false false false
  | PIPE_FORMAT_ETC1_RGB8 => mk_desc 8 4 4 false false true
  end.

Definition util_format_get_blocksize (f : pipe_format) : Z :=
  fd_blocksize (util_format_description f).
Definition util_format_get_blockwidth (f : pipe_format) : Z :=
  fd_blockwidth (util_format_description f).
Definition util_format_get_blockheight (f : pipe_format) : Z :=
  fd_blockheight (util_format_description f).
Definition util_format_is_compressed (f : pipe_format) : bool :=
  fd_is_compressed (util_format_description f).
Definition util_format_has_depth (d : format_desc) : bool := fd_has_depth d.
Definition util_format_has_stencil (d : format_desc) : bool := fd_has_stencil d.

(** ** Unsigned arithmetic *)

Definition u32 (x : Z) : Z := x mod 2 ^ 32.
Definition u64 (x : Z) : Z := x mod 2 ^ 64.

(** [align] of u_math.h: [(value + alignment - 1) & ~(alignment - 1)]. *)
Definition align (value alignment : Z) : Z :=
  Z.land (u32 (value + alignment - 1)) (u32 (Z.lnot (alignment - 1))).

(** [u_minify]: [MAX2(1, value >> levels)]. *)
Definition u_minify (value : Z) (levels : nat) : Z :=
  Z.max 1 (Z.shiftr value (Z.of_nat levels)).

Definition util_format_get_nblocksx (f : pipe_format) (x : Z) : Z :=
  let blockwidth := util_format_get_blockwidth f in
  u32 (x + (blockwidth - 1)) / blockwidth.

Definition util_format_get_nblocksy (f : pipe_format) (y : Z) : Z :=
  let blockheight := util_format_get_blockheight f in
  u32 (y + (blockheight - 1)) / blockheight.

Definition util_format_get_stride (f : pipe_format) (width : Z) : Z :=
  u32 (util_format_get_nblocksx f width * util_format_get_blocksize f).

(** ** Resources *)

Inductive pipe_texture_target : Type :=
| PIPE_BUFFER
| PIPE_TEXTURE_1D
| PIPE_TEXTURE_2D
| PIPE_TEXTURE_3D
| PIPE_TEXTURE_CUBE
| PIPE_TEXTURE_RECT
| PIPE_TEXTURE_1D_ARRAY
| PIPE_TEXTURE_2D_ARRAY
| PIPE_TEXTURE_CUBE_ARRAY.

(** Bind flags of p_defines.h. *)
Definition PIPE_BIND_DEPTH_STENCIL : Z := Z.shiftl 1 0.
Definition PIPE_BIND_RENDER_TARGET : Z := Z.shiftl 1 1.
Definition PIPE_BIND_SAMPLER_VIEW : Z := Z.shiftl 1 3.
Definition PIPE_BIND_DISPLAY_TARGET : Z := Z.shiftl 1 7.
Definition PIPE_BIND_SCANOUT : Z := Z.shiftl 1 19.
Definition PIPE_BIND_SHARED : Z := Z.shiftl 1 20.

Record pipe_resource := mk_pipe_resource {
  target : pipe_texture_target;
  format : pipe_format;
  width0 : Z;
  height0 : Z;
  depth0 : Z;
  array_size : Z;
  last_level : nat;
  nr_samples : Z;
  bind : Z
}.

(** [SWR_SURFACE_STATE]; [s_type] keeps the gallium target that
    [swr_convert_target_type] converts, and [s_format] is [None] for
    [(SWR_FORMAT)-1]. *)
Record SWR_SURFACE_STATE := mk_surface {
  pBaseAddress : Z;
  s_type : pipe_texture_target;
  s_width : Z;
  s_height : Z;
  s_depth : Z;
  s_format : option SWR_FORMAT;
  numSamples : Z;
  pitch : Z;
  qpitch : Z;
  halign : Z;
  valign : Z
}.

Definition set_base (s : SWR_SURFACE_STATE) (p : Z) : SWR_SURFACE_STATE :=
  {| pBaseAddress := p; s_type := s_type s; s_width := s_width s;
     s_height := s_height s; s_depth := s_depth s; s_format := s_format s;
     numSamples := numSamples s; pitch := pitch s; qpitch := qpitch s;
     halign := halign s; valign := valign s |}.

(** [res->secondary.format = R8_UINT; res->secondary.pitch = p;] on a copy. *)
Definition set_format_pitch (s : SWR_SURFACE_STATE) (f : SWR_FORMAT) (p : Z)
  : SWR_SURFACE_STATE :=
  {| pBaseAddress := pBaseAddress s; s_type := s_type s; s_width := s_width s;
     s_height := s_height s; s_depth := s_depth s; s_format := Some f;
     numSamples := numSamples s; pitch := p; qpitch := qpitch s;
     halign := halign s; valign := valign s |}.

Record swr_resource := mk_resource {
  base : pipe_resource;
  has_depth : bool;
  has_stencil : bool;
  swr : SWR_SURFACE_STATE;
  secondary : SWR_SURFACE_STATE;
  mip_offsets : list Z;
  secondary_mip_offsets : list Z;
  display_target : option Z
}.

(** ** The heap of [AlignedMalloc]

    [live] lists the live blocks (address, size); [malloc_ok] lists the
    outcomes of the next allocations ([false]: the allocation fails and
    returns NULL); once it is exhausted every allocation succeeds. *)
Record heap := mk_heap {
  live : list (Z * Z);
  next_addr : Z;
  malloc_ok : list bool
}.

Definition AlignedMalloc (size alignment : Z) (h : heap) : Z * heap :=
  let grant rest :=
    (next_addr h,
     {| live := (next_addr h, size) :: live h;
        next_addr := next_addr h + alignment * (1 + size / alignment);
        malloc_ok := rest |}) in
  match malloc_ok h with
  | false :: rest => (0, {| live := live h; next_addr := next_addr h; malloc_ok := rest |})
  | true :: rest => grant rest
  | [] => grant []
  end.

(** ** swr_texture_layout *)

Definition SWR_MAX_TEXTURE_SIZE : Z := 4 * 1024 * 1024 * 1024.

Definition is_1d (t : pipe_texture_target) : bool :=
  match t with
  | PIPE_TEXTURE_1D | PIPE_TEXTURE_1D_ARRAY => true
  | _ => false
  end.

Definition is_3d (t : pipe_texture_target) : bool :=
  match t with PIPE_TEXTURE_3D => true | _ => false end.

(** [for (level = first; level < first + count; level++) acc += f(level);]
    on an [unsigned] accumulator. *)
Fixpoint accum_levels (f : nat -> Z) (level count : nat) (acc : Z) : Z :=
  match count with
  | O => acc
  | S c => accum_levels f (S level) c (u32 (acc + f level))
  end.

(** The fix-up of the SWR format "so that LOD offset computation works";
    [None] is the [unreachable] default of the switch. *)
Definition lod_format_fixup (blocksize : Z) (compressed : bool) : option SWR_FORMAT :=
  if blocksize =? 1 then Some R8_UINT
  else if blocksize =? 2 then Some R16_UINT
  else if blocksize =? 4 then Some R32_UINT
  else if blocksize =? 8 then Some (if compressed then BC4_UNORM else R32G32_UINT)
  else if blocksize =? 16 then Some (if compressed then BC5_UNORM else R32G32B32A32_UINT)
  else None.

Section Layout.

(** The macrotile dimensions of the SWR rasterizer knobs. *)
Variable KNOB_MACROTILE_X_DIM KNOB_MACROTILE_Y_DIM : Z.

(** [ComputeSurfaceOffset<false>(0, 0, 0, 0, 0, level, pState)] of the
    rasterizer's TilingFunctions.h: the byte offset of a LOD within a
    surface, left abstract. *)
Variable ComputeSurfaceOffset : SWR_SURFACE_STATE -> nat -> Z.

(** [fmt]: the resource's format, or R8_UINT for a stencil-only format. *)
Definition layout_format (pt : pipe_resource) : pipe_format :=
  let desc := util_format_description (format pt) in
  if util_format_has_stencil desc && negb (util_format_has_depth desc)
  then PIPE_FORMAT_R8_UINT else format pt.

(** [res->swr.halign] and [res->swr.valign]. *)
Definition swr_aligns (pt : pipe_resource) : Z * Z :=
  if negb (Z.land (bind pt) (Z.lor PIPE_BIND_RENDER_TARGET PIPE_BIND_DEPTH_STENCIL) =? 0)
  then (KNOB_MACROTILE_X_DIM, KNOB_MACROTILE_Y_DIM)
  else (1, 1).

(** [res->swr.pitch] and [res->swr.qpitch]. *)
Definition layout_pitch_qpitch (pt : pipe_resource) : Z * Z :=
  let fmt := layout_format pt in
  let '(swr_halign, swr_valign) := swr_aligns pt in
  let halign := u32 (swr_halign * util_format_get_blockwidth fmt) in
  let width := align (width0 pt) halign in
  if is_1d (target pt) then
    let width :=
      accum_levels (fun level => align (u_minify (width0 pt) level) halign)
                   1 (last_level pt) width in
    (util_format_get_blocksize fmt, util_format_get_nblocksx fmt width)
  else
    let valign := u32 (swr_valign * util_format_get_blockheight fmt) in
    let width :=
      if (1 <? last_level pt)%nat
      then Z.max width (u32 (align (u_minify (width0 pt) 1) halign +
                             align (u_minify (width0 pt) 2) halign))
      else width in
    let height := align (height0 pt) valign in
    let height :=
      if (last_level pt =? 1)%nat then
        u32 (height + align (u_minify (height0 pt) 1) valign)
      else if (1 <? last_level pt)%nat then
        let level1 := align (u_minify (height0 pt) 1) valign in
        let level2 :=
          accum_levels (fun level => align (u_minify (height0 pt) level) valign)
                       2 (last_level pt - 1) 0 in
        u32 (height + Z.max level1 level2)
      else height in
    (util_format_get_stride fmt width, util_format_get_nblocksy fmt height).

(** [res->swr.depth]. *)
Definition layout_depth (pt : pipe_resource) : Z :=
  if is_3d (target pt) then depth0 pt else array_size pt.

(** [res->swr.format] after the fix-up. *)
Definition layout_swr_format (pt : pipe_resource) : option SWR_FORMAT :=
  let fmt := layout_format pt in
  match mesa_to_swr_format fmt with
  | Some f => Some f
  | None => lod_format_fixup (util_format_get_blocksize fmt)
                             (util_format_is_compressed fmt)
  end.

(** [total_size = (size_t)depth * qpitch * pitch]. *)
Definition total_size (pt : pipe_resource) : Z :=
  let '(p, q) := layout_pitch_qpitch pt in
  u64 (layout_depth pt * q * p).

Definition level_offsets (s : SWR_SURFACE_STATE) (last : nat) : list Z :=
  map (ComputeSurfaceOffset s) (seq 0 (S last)).

(** [swr_texture_layout(screen, res, allocate)]: [None] when the format
    fix-up reaches [unreachable]; otherwise the returned [bool], the updated
    resource and the heap. *)
Definition swr_texture_layout (res : swr_resource) (allocate : bool) (h : heap)
  : option (bool * swr_resource * heap) :=
  let pt := base res in
  let desc := util_format_description (format pt) in
  let hd := util_format_has_depth desc in
  let hs := util_format_has_stencil desc in
  let fmt := layout_format pt in
  let '(ha, va) := swr_aligns pt in
  let '(p, q) := layout_pitch_qpitch pt in
  match layout_swr_format pt with
  | None => None
  | Some sf =>
    let s := {| pBaseAddress := pBaseAddress (swr res); s_type := target pt;
                s_width := width0 pt; s_height := height0 pt;
                s_depth := layout_depth pt; s_format := Some sf;
                numSamples := Z.max 1 (nr_samples pt);
                pitch := p; qpitch := q; halign := ha; valign := va |} in
    let mo := level_offsets s (last_level pt) in
    let sz := total_size pt in
    if SWR_MAX_TEXTURE_SIZE <? sz then
      Some (false, {| base := pt; has_depth := hd; has_stencil := hs; swr := s;
                      secondary := secondary res; mip_offsets := mo;
                      secondary_mip_offsets := secondary_mip_offsets res;
                      display_target := display_target res |}, h)
    else if allocate then
      let '(ptr, h1) := AlignedMalloc sz 64 h in
      let s1 := set_base s ptr in
      if hd && hs then
        let sec := set_format_pitch s1 R8_UINT (p / util_format_get_blocksize fmt) in
        let smo := level_offsets sec (last_level pt) in
        let '(ptr2, h2) :=
          AlignedMalloc (u32 (s_depth sec * qpitch sec * pitch sec)) 64 h1 in
        Some (true, {| base := pt; has_depth := hd; has_stencil := hs; swr := s1;
                       secondary := set_base sec ptr2; mip_offsets := mo;
                       secondary_mip_offsets := smo;
                       display_target := display_target res |}, h2)
      else
        Some (true, {| base := pt; has_depth := hd; has_stencil := hs; swr := s1;
                       secondary := secondary res; mip_offsets := mo;
                       secondary_mip_offsets := secondary_mip_offsets res;
                       display_target := display_target res |}, h1)
    else
      Some (true, {| base := pt; has_depth := hd; has_stencil := hs; swr := s;
                     secondary := secondary res; mip_offsets := mo;
                     secondary_mip_offsets := secondary_mip_offsets res;
                     display_target := display_target res |}, h)
  end.

(** ** Resource creation *)

(** Modelled from the spec: [swr_resource_is_texture] of swr_resource.h
    (not in this tree): every target but a buffer is a texture. *)
Definition swr_resource_is_texture (pt : pipe_resource) : bool :=
  match target pt with PIPE_BUFFER => false | _ => true end.

(** [swr_displaytarget_layout]: [dt] is what the winsys'
    [displaytarget_create] returned ([None] for NULL) and [map] what
    [displaytarget_map] returned.  The clearing [memset] writes no field of
    the resource. *)
Definition swr_displaytarget_layout (res : swr_resource) (dt : option Z) (map : Z)
  : bool * swr_resource :=
  match dt with
  | None => (false, res)
  | Some handle =>
    (true, {| base := base res; has_depth := has_depth res;
              has_stencil := has_stencil res; swr := set_base (swr res) map;
              secondary := secondary res; mip_offsets := mip_offsets res;
              secondary_mip_offsets := secondary_mip_offsets res;
              display_target := Some handle |})
  end.

Definition zero_surface : SWR_SURFACE_STATE :=
  {| pBaseAddress := 0; s_type := PIPE_BUFFER; s_width := 0; s_height := 0;
     s_depth := 0; s_format := None; numSamples := 0; pitch := 0; qpitch := 0;
     halign := 0; valign := 0 |}.

(** [CALLOC_STRUCT(swr_resource)] followed by [res->base = *templat]. *)
Definition calloc_resource (templat : pipe_resource) : swr_resource :=
  {| base := templat; has_depth := false; has_stencil := false;
     swr := zero_surface; secondary := zero_surface; mip_offsets := [];
     secondary_mip_offsets := []; display_target := None |}.

Definition is_displayable (pt : pipe_resource) : bool :=
  negb (Z.land (bind pt)
          (Z.lor PIPE_BIND_DISPLAY_TARGET (Z.lor PIPE_BIND_SCANOUT PIPE_BIND_SHARED)) =? 0).

(** [swr_resource_create]: [calloc_ok] is whether [CALLOC_STRUCT]
    succeeded, [dt] and [map] the winsys' answers.  The outer [None] is the
    [unreachable] of [swr_texture_layout]; the inner [None] is the NULL
    returned by the function.  The asserts of the buffer branch are not
    modelled: that branch makes the same call as the texture-map one. *)
Definition swr_resource_create (templat : pipe_resource) (calloc_ok : bool)
    (dt : option Z) (map : Z) (h : heap) : option (option swr_resource * heap) :=
  if negb calloc_ok then Some (None, h) else
  let res := calloc_resource templat in
  if swr_resource_is_texture templat && is_displayable templat then
    match swr_texture_layout res false h with
    | None => None
    | Some (_, res1, h1) =>
      let '(ok, res2) := swr_displaytarget_layout res1 dt map in
      if ok then Some (Some res2, h1) else Some (None, h1)
    end
  else
    match swr_texture_layout res true h with
    | None => None
    | Some (ok, res1, h1) => if ok then Some (Some res1, h1) else Some (None, h1)
    end.

End Layout.

(** ** Capability query, destruction and format support *)

(** [swr_can_create_resource]: a layout without allocation of a zeroed
    resource holding the template. *)
Definition swr_can_create_resource (KX KY : Z) (cso : SWR_SURFACE_STATE -> nat -> Z)
    (templat : pipe_resource) (h : heap) : option bool :=
  match swr_texture_layout KX KY cso (calloc_resource templat) false h with
  | Some (ok, _, _) => Some ok
  | None => None
  end.

(** [AlignedFree]: releases the block at [p]; a NULL pointer is ignored. *)
Fixpoint remove_block (p : Z) (l : list (Z * Z)) : list (Z * Z) :=
  match l with
  | [] => []
  | (q, s) :: l' => if p =? q then l' else (q, s) :: remove_block p l'
  end.

Definition AlignedFree (p : Z) (h : heap) : heap :=
  if p =? 0 then h
  else {| live := remove_block p (live h); next_addr := next_addr h; malloc_ok := malloc_ok h |}.

(** The calls of the screen's functions on their collaborators. *)
Inductive event : Type :=
| FenceSubmit
| FenceFinish
| ResourceUnused
| DisplaytargetDestroy (dt : Z)
| Free (p : Z)
| EndFrame
| DisplaytargetDisplay (dt : Z).

(** [swr_resource_destroy]: [has_pipe] is whether [screen->pipe] is set,
    [in_use] the resource's [status], [fence_pending] the answer of
    [swr_is_fence_pending]; returns the calls made, in order, and the heap.
    The final [FREE(spr)] of the structure itself is not modelled. *)
Definition swr_resource_destroy (has_pipe in_use fence_pending : bool)
    (spr : swr_resource) (h : heap) : list event * heap :=
  let fence :=
    if has_pipe && in_use then
      (if fence_pending then [] else [FenceSubmit]) ++ [FenceFinish; ResourceUnused]
    else [] in
  let '(ev1, h1) :=
    match display_target spr with
    | Some dt => ([DisplaytargetDestroy dt], h)
    | None => ([Free (pBaseAddress (swr spr))], AlignedFree (pBaseAddress (swr spr)) h)
    end in
  (fence ++ ev1 ++ [Free (pBaseAddress (secondary spr))],
   AlignedFree (pBaseAddress (secondary spr)) h1).

(** The calls that give storage back. *)
Definition is_release (e : event) : bool :=
  match e with DisplaytargetDestroy _ | Free _ => true | _ => false end.

(** [swr_flush_frontbuffer]: [has_pipe] is whether [screen->pipe] is set;
    returns the calls made, in order.  [debug_assert] is a no-op in a release
    build. *)
Definition swr_flush_frontbuffer (has_pipe : bool) (spr : swr_resource) : list event :=
  (if has_pipe then [FenceFinish; ResourceUnused; EndFrame] else []) ++
  match display_target spr with
  | Some dt => [DisplaytargetDisplay dt]
  | None => []
  end.

(** Format layouts and colour spaces of gallium's format table, for the
    formats above. *)
Inductive util_format_layout : Type :=
| UTIL_FORMAT_LAYOUT_PLAIN
| UTIL_FORMAT_LAYOUT_SUBSAMPLED
| UTIL_FORMAT_LAYOUT_S3TC
| UTIL_FORMAT_LAYOUT_RGTC
| UTIL_FORMAT_LAYOUT_ETC
| UTIL_FORMAT_LAYOUT_BPTC
| UTIL_FORMAT_LAYOUT_ASTC.

Definition format_layout (f : pipe_format) : util_format_layout :=
  match f with
  | PIPE_FORMAT_UYVY => UTIL_FORMAT_LAYOUT_SUBSAMPLED
  | PIPE_FORMAT_DXT1_RGBA | PIPE_FORMAT_DXT3_RGBA | PIPE_FORMAT_DXT5_RGBA
  | PIPE_FORMAT_DXT1_SRGBA | PIPE_FORMAT_DXT3_SRGBA | PIPE_FORMAT_DXT5_SRGBA =>
    UTIL_FORMAT_LAYOUT_S3TC
  | PIPE_FORMAT_RGTC1_UNORM | PIPE_FORMAT_RGTC1_SNORM
  | PIPE_FORMAT_RGTC2_UNORM | PIPE_FORMAT_RGTC2_SNORM => UTIL_FORMAT_LAYOUT_RGTC
  | PIPE_FORMAT_ETC1_RGB8 => UTIL_FORMAT_LAYOUT_ETC
  | _ => UTIL_FORMAT_LAYOUT_PLAIN
  end.

(** [colorspace == UTIL_FORMAT_COLORSPACE_ZS]: the formats with a depth or
    a stencil channel. *)
Definition colorspace_is_zs (f : pipe_format) : bool :=
  let d := util_format_description f in
  util_format_has_depth d || util_format_has_stencil d.

Definition layout_eqb (a b : util_format_layout) : bool :=
  match a, b with
  | UTIL_FORMAT_LAYOUT_PLAIN, UTIL_FORMAT_LAYOUT_PLAIN
  | UTIL_FORMAT_LAYOUT_SUBSAMPLED, UTIL_FORMAT_LAYOUT_SUBSAMPLED
  | UTIL_FORMAT_LAYOUT_S3TC, UTIL_FORMAT_LAYOUT_S3TC
  | UTIL_FORMAT_LAYOUT_RGTC, UTIL_FORMAT_LAYOUT_RGTC
  | UTIL_FORMAT_LAYOUT_ETC, UTIL_FORMAT_LAYOUT_ETC
  | UTIL_FORMAT_LAYOUT_BPTC, UTIL_FORMAT_LAYOUT_BPTC
  | UTIL_FORMAT_LAYOUT_ASTC, UTIL_FORMAT_LAYOUT_ASTC => true
  | _, _ => false
  end.

Definition is_etc1_rgb8 (f : pipe_format) : bool :=
  match f with PIPE_FORMAT_ETC1_RGB8 => true | _ => false end.

(** [mesa_to_swr_format(format) == (SWR_FORMAT)-1]. *)
Definition swr_unmapped (f : pipe_format) : bool :=
  match mesa_to_swr_format f with Some _ => false | None => true end.

Definition has_bind (bind flag : Z) : bool := negb (Z.land bind flag =? 0).

(** [swr_is_format_supported]: [dt_supported] is the winsys'
    [is_displaytarget_format_supported] and [s3tc_enabled] the global
    [util_format_s3tc_enabled].  Every format here has a description, so
    the NULL-description early return is never taken. *)
Definition swr_is_format_supported (dt_supported : Z -> pipe_format -> bool)
    (s3tc_enabled : bool) (f : pipe_format) (target : pipe_texture_target)
    (sample_count bind : Z) : bool :=
  let d := util_format_description f in
  if 1 <? sample_count then false
  else if has_bind bind (Z.lor PIPE_BIND_DISPLAY_TARGET
                          (Z.lor PIPE_BIND_SCANOUT PIPE_BIND_SHARED))
          && negb (dt_supported bind f) then false
  else if has_bind bind PIPE_BIND_RENDER_TARGET &&
          (colorspace_is_zs f || swr_unmapped f ||
           negb (fd_blockwidth d =? 1) || negb (fd_blockheight d =? 1)) then false
  else if has_bind bind PIPE_BIND_DEPTH_STENCIL &&
          (negb (colorspace_is_zs f) || swr_unmapped f) then false
  else if layout_eqb (format_layout f) UTIL_FORMAT_LAYOUT_BPTC ||
          layout_eqb (format_layout f) UTIL_FORMAT_LAYOUT_ASTC then false
  else if layout_eqb (format_layout f) UTIL_FORMAT_LAYOUT_ETC && negb (is_etc1_rgb8 f)
  then false
  else if layout_eqb (format_layout f) UTIL_FORMAT_LAYOUT_S3TC then s3tc_enabled
  else true.

(** ** Readings of the layout formulas *)

(** [mipLevelCount = last_level + 1]. *)
Definition mip_level_count (pt : pipe_resource) : nat := S (last_level pt).

(** A sum of unsigned values, computed modulo 2^32. *)
Definition sum_u32 (l : list Z) : Z := u32 (fold_right Z.add 0 l).

(** The height of the 2D staircase, for [n] mip levels. *)
Definition staircase_height (height0 valign : Z) (n : nat) : Z :=
  let level0 := align height0 valign in
  let level1 := align (u_minify height0 1) valign in
  if (n =? 2)%nat then u32 (level0 + level1)
  else if (2 <? n)%nat then
    u32 (level0 + Z.max level1
           (sum_u32 (map (fun L => align (u_minify height0 L) valign) (seq 2 (n - 2)))))
  else level0.

(** The pitch width of the 2D staircase, for [n] mip levels. *)
Definition staircase_width (width0 halign : Z) (n : nat) : Z :=
  let w := align width0 halign in
  let w12 := u32 (align (u_minify width0 1) halign + align (u_minify width0 2) halign) in
  if (2 <? n)%nat then (if w <? w12 then w12 else w) else w.

(** The format has stencil but no depth. *)
Definition stencil_only (f : pipe_format) : bool :=
  let d := util_format_description f in
  util_format_has_stencil d && negb (util_format_has_depth d).

(** ** Lemmas on the unsigned arithmetic *)

Lemma u32_land_ones (x : Z) : u32 x = Z.land x (Z.ones 32).
Proof. unfold u32. rewrite Z.land_ones by lia. reflexivity. Qed.

Lemma align_u32 (v a : Z) : u32 (align v a) = align v a.
Proof.
  unfold align. rewrite !u32_land_ones.
  apply Z.bits_inj'. intros n _. rewrite !Z.land_spec.
  destruct (Z.testbit (v + a - 1) n), (Z.testbit (Z.lnot (a - 1)) n),
           (Z.testbit (Z.ones 32) n); reflexivity.
Qed.

Lemma accum_levels_sum (f : nat -> Z) (c l : nat) (a : Z) :
  accum_levels f l c (u32 a) = u32 (a + fold_right Z.add 0 (map f (seq l c))).
Proof.
  revert l a. induction c as [|c IH]; intros l a; simpl.
  - rewrite Z.add_0_r. reflexivity.
  - replace (u32 (u32 a + f l)) with (u32 (a + f l))
      by (unfold u32; rewrite Zplus_mod_idemp_l; reflexivity).
    rewrite IH. f_equal. lia.
Qed.

Lemma layout_format_blockheight (pt : pipe_resource) :
  util_format_get_blockheight (layout_format pt) = util_format_get_blockheight (format pt).
Proof. unfold layout_format. destruct (format pt); reflexivity. Qed.

Lemma layout_format_blockwidth (pt : pipe_resource) :
  util_format_get_blockwidth (layout_format pt) = util_format_get_blockwidth (format pt).
Proof. unfold layout_format. destruct (format pt); reflexivity. Qed.

Lemma layout_format_not_stencil_only (pt : pipe_resource) :
  stencil_only (format pt) = false -> layout_format pt = format pt.
Proof. unfold layout_format, stencil_only. intros ->. reflexivity. Qed.

(** Case analysis on a run of [swr_texture_layout]. *)
Ltac layout_cases alloc :=
  unfold swr_texture_layout;
  destruct (swr_aligns _ _ _) as [? ?];
  destruct (layout_pitch_qpitch _ _ _) as [? ?] eqn:?;
  destruct (layout_swr_format _) eqn:?; [|discriminate];
  destruct (SWR_MAX_TEXTURE_SIZE <? total_size _ _ _) eqn:?;
  [|destruct alloc;
    [destruct (AlignedMalloc _ _ _) as [? ?];
     destruct (_ && _);
     [destruct (AlignedMalloc _ _ _) as [? ?]|]|]].

(** ** C1: the 4 GiB limit *)

(** C1: a run of [swr_texture_layout] returns false exactly when the total
    size it computes, [(size_t)depth * qpitch * pitch], exceeds
    [SWR_MAX_TEXTURE_SIZE] (4 GiB): a total of exactly 4 GiB is accepted
    and one byte more is refused.  When it returns false it has allocated
    nothing: the heap and the base address are as before. *)
Theorem swr_texture_layout_size_limit (KX KY : Z)
    (cso : SWR_SURFACE_STATE -> nat -> Z) (res : swr_resource) (allocate : bool)
    (h : heap) (ok : bool) (r : swr_resource) (h' : heap) :
  swr_texture_layout KX KY cso res allocate h = Some (ok, r, h') ->
  (ok = false <-> SWR_MAX_TEXTURE_SIZE < total_size KX KY (base res)) /\
  (ok = false -> h' = h /\ pBaseAddress (swr r) = pBaseAddress (swr res)).
Proof.
  layout_cases allocate; intros E; injection E as <- <- <-;
    match goal with
    | H : (SWR_MAX_TEXTURE_SIZE <? _) = _ |- _ =>
        first [apply Z.ltb_lt in H | apply Z.ltb_ge in H]
    end;
    (split; [split; intros; try discriminate; try reflexivity; lia
            | intros; try discriminate; split; reflexivity]).
Qed.

(** ** Concrete descriptors *)

Definition texture (t : pipe_texture_target) (f : pipe_format) (w h d a : Z)
    (ll : nat) (b : Z) : pipe_resource :=
  {| target := t; format := f; width0 := w; height0 := h; depth0 := d;
     array_size := a; last_level := ll; nr_samples := 0; bind := b |}.

(** An offset routine for the concrete runs. *)
Definition sample_offsets (s : SWR_SURFACE_STATE) (level : nat) : Z :=
  Z.of_nat level * pitch s.

Definition empty_heap : heap := {| live := []; next_addr := 64; malloc_ok := [] |}.

Definition run_resource (o : option (bool * swr_resource * heap)) (dflt : swr_resource)
  : swr_resource :=
  match o with Some (_, r, _) => r | None => dflt end.

Definition run_ok (o : option (bool * swr_resource * heap)) : option bool :=
  match o with Some (ok, _, _) => Some ok | None => None end.

(** 65536 layers of a 65536-texel R8 1D array: exactly 4 GiB. *)
Definition exact_4g : pipe_resource :=
  texture PIPE_TEXTURE_1D_ARRAY PIPE_FORMAT_R8_UINT 65536 1 1 65536 0 0.

(** 641 layers of a 6700417-texel R8 1D array: 4 GiB + 1. *)
Definition over_4g : pipe_resource :=
  texture PIPE_TEXTURE_1D_ARRAY PIPE_FORMAT_R8_UINT 6700417 1 1 641 0 0.

Example exact_4g_total : total_size 1 1 exact_4g = SWR_MAX_TEXTURE_SIZE.
Proof. vm_compute. reflexivity. Qed.

Example over_4g_total : total_size 1 1 over_4g = SWR_MAX_TEXTURE_SIZE + 1.
Proof. vm_compute. reflexivity. Qed.

Example exact_4g_accepted :
  run_ok (swr_texture_layout 1 1 sample_offsets (calloc_resource exact_4g) true empty_heap)
  = Some true.
Proof. vm_compute. reflexivity. Qed.

Example over_4g_refused :
  run_ok (swr_texture_layout 1 1 sample_offsets (calloc_resource over_4g) true empty_heap)
  = Some false.
Proof. vm_compute. reflexivity. Qed.

Lemma swr_texture_layout_size_limit_witness :
  let res := calloc_resource over_4g in
  let r := run_resource (swr_texture_layout 1 1 sample_offsets res true empty_heap) res in
  swr_texture_layout 1 1 sample_offsets res true empty_heap = Some (false, r, empty_heap) /\
  ((false = false <-> SWR_MAX_TEXTURE_SIZE < total_size 1 1 (base res)) /\
   (false = false -> empty_heap = empty_heap /\ pBaseAddress (swr r) = pBaseAddress (swr res))).
Proof.
  intros res r. assert (E : swr_texture_layout 1 1 sample_offsets res true empty_heap
                            = Some (false, r, empty_heap)) by (vm_compute; reflexivity).
  split; [exact E | exact (swr_texture_layout_size_limit 1 1 sample_offsets res true
                                 empty_heap false r empty_heap E)].
Defined.

(** ** C2: the qpitch of the 2D staircase *)

Lemma layout_format_nblocksy (pt : pipe_resource) (y : Z) :
  util_format_get_nblocksy (layout_format pt) y = util_format_get_nblocksy (format pt) y.
Proof. unfold util_format_get_nblocksy. rewrite layout_format_blockheight. reflexivity. Qed.

(** C2: for a descriptor that is not 1D or 1D-array, qpitch is the number
    of block rows of the staircase height: [align(height0, valign)] for one
    mip level; plus [align(minify(height0, 1), valign)] for two; plus the
    larger of that and the sum of [align(minify(height0, L), valign)] over
    L = 2 .. mipLevelCount - 1 for more; [valign] being the vertical
    alignment times the format's block height, and the sums unsigned. *)
Theorem qpitch_staircase (KX KY : Z) (pt : pipe_resource) :
  is_1d (target pt) = false ->
  snd (layout_pitch_qpitch KX KY pt) =
  util_format_get_nblocksy (format pt)
    (staircase_height (height0 pt)
       (u32 (snd (swr_aligns KX KY pt) * util_format_get_blockheight (format pt)))
       (mip_level_count pt)).
Proof.
  intros H1. unfold layout_pitch_qpitch, mip_level_count.
  destruct (swr_aligns KX KY pt) as [ha va]. rewrite H1. simpl snd.
  rewrite layout_format_nblocksy, layout_format_blockheight.
  unfold staircase_height.
  destruct (last_level pt) as [|[|n]]; [reflexivity|reflexivity|].
  simpl Nat.eqb. simpl Nat.ltb. cbv zeta. do 2 f_equal.
  replace (S (S n) - 1)%nat with (S n) by lia.
  replace (S (S (S n)) - 2)%nat with (S n) by lia.
  change 0 with (u32 0) at 1. rewrite accum_levels_sum. reflexivity.
Qed.

Lemma qpitch_staircase_witness :
  is_1d (target (texture PIPE_TEXTURE_2D PIPE_FORMAT_R8G8B8A8_UNORM 64 64 1 1 5 0)) = false /\
  snd (layout_pitch_qpitch 1 1 (texture PIPE_TEXTURE_2D PIPE_FORMAT_R8G8B8A8_UNORM 64 64 1 1 5 0)) =
  util_format_get_nblocksy PIPE_FORMAT_R8G8B8A8_UNORM
    (staircase_height 64 (u32 (snd (swr_aligns 1 1 (texture PIPE_TEXTURE_2D
       PIPE_FORMAT_R8G8B8A8_UNORM 64 64 1 1 5 0)) * 1)) 6).
Proof.
  split; [reflexivity|].
  exact (qpitch_staircase 1 1 (texture PIPE_TEXTURE_2D PIPE_FORMAT_R8G8B8A8_UNORM 64 64 1 1 5 0)
           eq_refl).
Defined.

Example staircase_height_64 :
  staircase_height 64 1 6 = 64 + 32 /\ staircase_height 64 1 2 = 96 /\
  staircase_height 1 4 3 = 8.
Proof. vm_compute. repeat split; reflexivity. Qed.

(** ** C3, C8, C9: widths and pitches *)

Lemma layout_format_nblocksx (pt : pipe_resource) (x : Z) :
  util_format_get_nblocksx (layout_format pt) x = util_format_get_nblocksx (format pt) x.
Proof. unfold util_format_get_nblocksx. rewrite layout_format_blockwidth. reflexivity. Qed.

(** The horizontal and vertical alignments in pixels: the surface's
    alignment times the format's block width / height. *)
Definition pixel_halign (KX KY : Z) (pt : pipe_resource) : Z :=
  u32 (fst (swr_aligns KX KY pt) * util_format_get_blockwidth (format pt)).
Definition pixel_valign (KX KY : Z) (pt : pipe_resource) : Z :=
  u32 (snd (swr_aligns KX KY pt) * util_format_get_blockheight (format pt)).

(** C3 (amended): for a descriptor that is not 1D or 1D-array, the pitch
    width is [align(width0, halign)], widened only with more than 2 mip
    levels to [align(minify(width0,1), halign) + align(minify(width0,2),
    halign)] when that is larger; the pitch is that width as a byte stride
    of the layout format (the descriptor's format, R8_UINT for a
    stencil-only one). *)
Theorem pitch_staircase (KX KY : Z) (pt : pipe_resource) :
  is_1d (target pt) = false ->
  fst (layout_pitch_qpitch KX KY pt) =
  util_format_get_stride (layout_format pt)
    (staircase_width (width0 pt) (pixel_halign KX KY pt) (mip_level_count pt)).
Proof.
  intros H1. unfold layout_pitch_qpitch, pixel_halign, mip_level_count.
  destruct (swr_aligns KX KY pt) as [ha va]. rewrite H1. simpl fst.
  rewrite layout_format_blockwidth. unfold staircase_width.
  destruct (last_level pt) as [|[|n]]; [reflexivity|reflexivity|].
  assert (E1 : (1 <? S (S n))%nat = true) by reflexivity.
  assert (E2 : (2 <? S (S (S n)))%nat = true) by reflexivity.
  rewrite E1, E2. f_equal.
  match goal with |- Z.max ?a ?b = (if ?a <? ?b then ?b else ?a) =>
    destruct (Z.ltb_spec a b); [rewrite Z.max_r|rewrite Z.max_l]; lia end.
Qed.

Definition tex16 : pipe_resource :=
  texture PIPE_TEXTURE_2D PIPE_FORMAT_R8G8B8A8_UNORM 16 16 1 1 4 0.

Lemma pitch_staircase_witness :
  is_1d (target tex16) = false /\
  fst (layout_pitch_qpitch 1 1 tex16) =
  util_format_get_stride (layout_format tex16)
    (staircase_width (width0 tex16) (pixel_halign 1 1 tex16) (mip_level_count tex16)).
Proof. split; [reflexivity | exact (pitch_staircase 1 1 tex16 eq_refl)]. Defined.

(** width0 = 16, five levels, halign = 1: levels 1 and 2 take 8 + 4. *)
Example staircase_width_16 :
  pixel_halign 1 1 tex16 = 1 /\ mip_level_count tex16 = 5%nat /\
  staircase_width 16 1 5 = 16 /\ fst (layout_pitch_qpitch 1 1 tex16) = 16 * 4.
Proof. vm_compute. repeat split; reflexivity. Qed.

(** Stencil-only X24S8_UINT: 4 bytes a texel. *)
Definition x24s8_2d : pipe_resource :=
  texture PIPE_TEXTURE_2D PIPE_FORMAT_X24S8_UINT 16 16 1 1 4 0.

(** C3 is refuted at a 16x16 X24S8_UINT texture of five levels: the pitch
    width is 16 but the pitch is 16 bytes, not the 64 bytes of 16 texels of
    4 bytes. *)
Lemma pitch_staircase_x24s8 :
  staircase_width (width0 x24s8_2d) (pixel_halign 1 1 x24s8_2d) (mip_level_count x24s8_2d) = 16 /\
  fst (layout_pitch_qpitch 1 1 x24s8_2d) = 16 /\
  util_format_get_stride (format x24s8_2d) 16 = 64.
Proof. vm_compute. repeat split; reflexivity. Qed.

(** The width of the 1D layout: level 0 aligned, then each of the levels
    1 .. n-1 minified and aligned, end to end (an unsigned sum). *)
Definition row_width (width0 halign : Z) (n : nat) : Z :=
  sum_u32 (align width0 halign ::
           map (fun L => align (u_minify width0 L) halign) (seq 1 (n - 1))).

(** C8 (amended): for a 1D or 1D-array descriptor, the pitch is the block
    size of the layout format (the descriptor's format, R8_UINT for a
    stencil-only one) and the qpitch the number of blocks of the row width
    of all mip levels laid end to end. *)
Theorem pitch_qpitch_1d (KX KY : Z) (pt : pipe_resource) :
  is_1d (target pt) = true ->
  layout_pitch_qpitch KX KY pt =
  (util_format_get_blocksize (layout_format pt),
   util_format_get_nblocksx (format pt)
     (row_width (width0 pt) (pixel_halign KX KY pt) (mip_level_count pt))).
Proof.
  intros H1. unfold layout_pitch_qpitch, pixel_halign, mip_level_count, row_width, sum_u32.
  destruct (swr_aligns KX KY pt) as [ha va]. rewrite H1. simpl fst.
  rewrite layout_format_nblocksx, layout_format_blockwidth.
  replace (S (last_level pt) - 1)%nat with (last_level pt) by lia.
  rewrite <- (align_u32 (width0 pt)) at 1. rewrite accum_levels_sum. reflexivity.
Qed.

Definition tex1d : pipe_resource :=
  texture PIPE_TEXTURE_1D_ARRAY PIPE_FORMAT_R16_UNORM 100 1 1 3 3 0.

Lemma pitch_qpitch_1d_witness :
  is_1d (target tex1d) = true /\
  layout_pitch_qpitch 1 1 tex1d =
  (util_format_get_blocksize (layout_format tex1d),
   util_format_get_nblocksx (format tex1d)
     (row_width (width0 tex1d) (pixel_halign 1 1 tex1d) (mip_level_count tex1d))).
Proof. split; [reflexivity | exact (pitch_qpitch_1d 1 1 tex1d eq_refl)]. Defined.

Example tex1d_layout : layout_pitch_qpitch 1 1 tex1d = (2, 100 + 50 + 25 + 12).
Proof. vm_compute. reflexivity. Qed.

Definition x24s8_1d : pipe_resource :=
  texture PIPE_TEXTURE_1D PIPE_FORMAT_X24S8_UINT 16 1 1 1 0 0.

(** C8 is refuted at a 1D X24S8_UINT texture: its format has 4-byte
    blocks, the pitch is 1. *)
Lemma pitch_1d_x24s8 :
  util_format_get_blocksize (format x24s8_1d) = 4 /\
  fst (layout_pitch_qpitch 1 1 x24s8_1d) = 1.
Proof. vm_compute. split; reflexivity. Qed.

(** C9 (amended): with a single mip level, a descriptor that is not 1D or
    1D-array has as pitch [align(width0, halign * blockWidth)] as a byte
    stride of the layout format (R8_UINT for a stencil-only format, the
    descriptor's format otherwise) and as qpitch the block rows of
    [align(height0, valign * blockHeight)]. *)
Theorem single_level_layout (KX KY : Z) (pt : pipe_resource) :
  is_1d (target pt) = false -> last_level pt = 0%nat ->
  layout_pitch_qpitch KX KY pt =
  (util_format_get_stride (layout_format pt) (align (width0 pt) (pixel_halign KX KY pt)),
   util_format_get_nblocksy (format pt) (align (height0 pt) (pixel_valign KX KY pt))).
Proof.
  intros H1 H0. unfold layout_pitch_qpitch, pixel_halign, pixel_valign.
  destruct (swr_aligns KX KY pt) as [ha va]. rewrite H1, H0. simpl fst; simpl snd.
  rewrite layout_format_nblocksy, layout_format_blockwidth, layout_format_blockheight.
  reflexivity.
Qed.

(** 257x130 RGBA8 render target, macrotiles of 32x32. *)
Definition rt257 : pipe_resource :=
  texture PIPE_TEXTURE_2D PIPE_FORMAT_R8G8B8A8_UNORM 257 130 1 1 0 PIPE_BIND_RENDER_TARGET.

Lemma single_level_layout_witness :
  (is_1d (target rt257) = false /\ last_level rt257 = 0%nat) /\
  layout_pitch_qpitch 32 32 rt257 =
  (util_format_get_stride (layout_format rt257) (align (width0 rt257) (pixel_halign 32 32 rt257)),
   util_format_get_nblocksy (format rt257) (align (height0 rt257) (pixel_valign 32 32 rt257))).
Proof.
  split; [split; reflexivity | exact (single_level_layout 32 32 rt257 eq_refl eq_refl)].
Defined.

Example rt257_layout :
  pixel_halign 32 32 rt257 = 32 /\ pixel_valign 32 32 rt257 = 32 /\
  align 257 32 = 288 /\ align 130 32 = 160 /\
  layout_pitch_qpitch 32 32 rt257 = (288 * 4, 160).
Proof. vm_compute. repeat split; reflexivity. Qed.

Definition x24s8_single : pipe_resource :=
  texture PIPE_TEXTURE_2D PIPE_FORMAT_X24S8_UINT 4 4 1 1 0 0.

(** C9 is refuted at a single-level 4x4 X24S8_UINT texture: the pitch is 4,
    not the 16-byte stride of 4 texels of its format. *)
Lemma single_level_x24s8 :
  util_format_get_stride (format x24s8_single)
    (align (width0 x24s8_single) (pixel_halign 1 1 x24s8_single)) = 16 /\
  fst (layout_pitch_qpitch 1 1 x24s8_single) = 4.
Proof. vm_compute. split; reflexivity. Qed.

(** ** C4: the total size *)

Definition run_heap (o : option (bool * swr_resource * heap)) : heap :=
  match o with Some (_, _, h) => h | None => empty_heap end.

(** A 2^24 x 2^24 R8 2D array of 2^16 layers: 2^64 bytes. *)
Definition huge_array : pipe_resource :=
  texture PIPE_TEXTURE_2D_ARRAY PIPE_FORMAT_R8_UINT (2 ^ 24) (2 ^ 24) 1 (2 ^ 16) 0 0.

(** C4 fails on the code: for the 2^24 x 2^24 R8 array of 2^16 layers,
    depth * qpitch * pitch is 2^64, the [size_t] product wraps to 0, the
    layout is accepted and the backing allocation has 0 bytes. *)
Lemma total_size_wraps :
  layout_depth huge_array * snd (layout_pitch_qpitch 1 1 huge_array)
    * fst (layout_pitch_qpitch 1 1 huge_array) = 2 ^ 64 /\
  total_size 1 1 huge_array = 0 /\
  run_ok (swr_texture_layout 1 1 sample_offsets (calloc_resource huge_array) true empty_heap)
    = Some true /\
  live (run_heap (swr_texture_layout 1 1 sample_offsets (calloc_resource huge_array) true
                    empty_heap)) = [(64, 0)].
Proof. vm_compute. repeat split; reflexivity. Qed.

(** ** C5: failed allocations *)

Definition zs_tex : pipe_resource :=
  texture PIPE_TEXTURE_2D PIPE_FORMAT_Z24_UNORM_S8_UINT 4 4 1 1 0 PIPE_BIND_DEPTH_STENCIL.

Definition heap_with (outcomes : list bool) : heap :=
  {| live := []; next_addr := 64; malloc_ok := outcomes |}.

(** C5 fails on the code: with allocation requested, a failed primary
    allocation leaves a NULL base address and the layout still returns
    true; a failed stencil allocation returns true with the primary
    allocation still live. *)
Lemma allocation_failure_ignored :
  let res := calloc_resource zs_tex in
  run_ok (swr_texture_layout 64 64 sample_offsets res true (heap_with [false; true])) = Some true /\
  pBaseAddress (swr (run_resource (swr_texture_layout 64 64 sample_offsets res true
                                     (heap_with [false; true])) res)) = 0 /\
  run_ok (swr_texture_layout 64 64 sample_offsets res true (heap_with [true; false])) = Some true /\
  pBaseAddress (secondary (run_resource (swr_texture_layout 64 64 sample_offsets res true
                                          (heap_with [true; false])) res)) = 0 /\
  live (run_heap (swr_texture_layout 64 64 sample_offsets res true (heap_with [true; false])))
    = [(64, 64 * 64 * 4)].
Proof. vm_compute. repeat split; reflexivity. Qed.

(** ** C6: the stencil surface *)

Definition depth_stencil (f : pipe_format) : bool :=
  let d := util_format_description f in
  util_format_has_depth d && util_format_has_stencil d.

(** C6 is refuted at a 4x4 Z24_UNORM_S8_UINT texture laid out without
    allocation (as [swr_can_create_resource] and the display-target path
    do): the layout is accepted and no stencil surface is derived; the
    secondary state keeps its zeroed contents, with no format. *)
Lemma no_secondary_without_allocation :
  depth_stencil (format zs_tex) = true /\
  run_ok (swr_texture_layout 64 64 sample_offsets (calloc_resource zs_tex) false empty_heap)
    = Some true /\
  secondary (run_resource (swr_texture_layout 64 64 sample_offsets (calloc_resource zs_tex)
                             false empty_heap) (calloc_resource zs_tex)) = zero_surface.
Proof. vm_compute. repeat split; reflexivity. Qed.

(** C6 (amended): when a depth+stencil descriptor is accepted with
    allocation requested, the secondary surface is the primary's state
    (same width, height, depth and qpitch) with format R8_UINT and pitch
    the primary pitch divided by the format's block size; its per-level
    offsets come from the same offset routine applied to that state.
    Without allocation no secondary surface is derived: the secondary
    state and its offsets are those the resource came in with. *)
Theorem secondary_surface (KX KY : Z) (cso : SWR_SURFACE_STATE -> nat -> Z)
    (res : swr_resource) (allocate : bool) (h : heap) (r : swr_resource) (h' : heap) :
  swr_texture_layout KX KY cso res allocate h = Some (true, r, h') ->
  depth_stencil (format (base res)) = true ->
  if allocate then
    (s_format (secondary r) = Some R8_UINT /\
     pitch (secondary r) = pitch (swr r) / util_format_get_blocksize (format (base res)) /\
     qpitch (secondary r) = qpitch (swr r) /\
     s_depth (secondary r) = s_depth (swr r) /\
     s_width (secondary r) = s_width (swr r) /\
     s_height (secondary r) = s_height (swr r) /\
     secondary_mip_offsets r =
     level_offsets cso (set_base (secondary r) (pBaseAddress (swr r))) (last_level (base res)))
  else
    (secondary r = secondary res /\ secondary_mip_offsets r = secondary_mip_offsets res).
Proof.
  unfold depth_stencil, swr_texture_layout. intros E Hds.
  apply andb_prop in Hds as [Hd Hs].
  assert (Hf : layout_format (base res) = format (base res))
    by (unfold layout_format; rewrite Hd; rewrite andb_false_r; reflexivity).
  revert E. rewrite Hd, Hs, Hf. simpl andb.
  destruct (swr_aligns KX KY (base res)) as [ha va].
  destruct (layout_pitch_qpitch KX KY (base res)) as [p q].
  destruct (layout_swr_format (base res)); [|discriminate].
  destruct (SWR_MAX_TEXTURE_SIZE <? total_size KX KY (base res)); [discriminate|].
  destruct allocate.
  - destruct (AlignedMalloc _ 64 h) as [ptr h1].
    destruct (AlignedMalloc _ 64 h1) as [ptr2 h2].
    intros E. injection E as <- <-. cbn. repeat split; reflexivity.
  - intros E. injection E as <- <-. cbn. split; reflexivity.
Qed.

Lemma secondary_surface_witness :
  (swr_texture_layout 64 64 sample_offsets (calloc_resource zs_tex) true empty_heap =
   Some (true, run_resource (swr_texture_layout 64 64 sample_offsets (calloc_resource zs_tex)
                               true empty_heap) (calloc_resource zs_tex),
         run_heap (swr_texture_layout 64 64 sample_offsets (calloc_resource zs_tex) true
                     empty_heap)) /\
   depth_stencil (format (base (calloc_resource zs_tex))) = true) /\
  let r := run_resource (swr_texture_layout 64 64 sample_offsets (calloc_resource zs_tex)
                           true empty_heap) (calloc_resource zs_tex) in
  s_format (secondary r) = Some R8_UINT /\
  pitch (secondary r) = pitch (swr r) / util_format_get_blocksize (format (base (calloc_resource zs_tex))) /\
  qpitch (secondary r) = qpitch (swr r) /\
  s_depth (secondary r) = s_depth (swr r) /\
  s_width (secondary r) = s_width (swr r) /\
  s_height (secondary r) = s_height (swr r) /\
  secondary_mip_offsets r =
  level_offsets sample_offsets (set_base (secondary r) (pBaseAddress (swr r)))
    (last_level (base (calloc_resource zs_tex))).
Proof.
  assert (E : swr_texture_layout 64 64 sample_offsets (calloc_resource zs_tex) true empty_heap =
   Some (true, run_resource (swr_texture_layout 64 64 sample_offsets (calloc_resource zs_tex)
                               true empty_heap) (calloc_resource zs_tex),
         run_heap (swr_texture_layout 64 64 sample_offsets (calloc_resource zs_tex) true
                     empty_heap))) by (vm_compute; reflexivity).
  assert (D : depth_stencil (format (base (calloc_resource zs_tex))) = true) by reflexivity.
  split; [split; [exact E | exact D] |].
  exact (secondary_surface 64 64 sample_offsets (calloc_resource zs_tex) true empty_heap _ _ E D).
Defined.

(** ** C7: the SWR format used for LOD offsets *)

(** X24S8_UINT has no SWR format and 4-byte blocks. *)
Definition x24s8_tex : pipe_resource :=
  texture PIPE_TEXTURE_2D PIPE_FORMAT_X24S8_UINT 4 4 1 1 0 0.

(** C7 is refuted at a 4x4 X24S8_UINT texture: its format has no SWR
    format and 4-byte blocks, yet the surface gets R8_UINT, not R32_UINT,
    since a stencil-only format is laid out as R8_UINT. *)
Lemma x24s8_lod_format :
  mesa_to_swr_format (format x24s8_tex) = None /\
  util_format_get_blocksize (format x24s8_tex) = 4 /\
  s_format (swr (run_resource (swr_texture_layout 1 1 sample_offsets (calloc_resource x24s8_tex)
                                 true empty_heap) (calloc_resource x24s8_tex)))
  = Some R8_UINT.
Proof. vm_compute. repeat split; reflexivity. Qed.

(** The generic formats by block size, as the spec lists them. *)
Definition generic_format_spec (blocksize : Z) (compressed : bool) (f : SWR_FORMAT) : Prop :=
  (blocksize = 1 /\ f = R8_UINT) \/ (blocksize = 2 /\ f = R16_UINT) \/
  (blocksize = 4 /\ f = R32_UINT) \/
  (blocksize = 8 /\ f = (if compressed then BC4_UNORM else R32G32_UINT)) \/
  (blocksize = 16 /\ f = (if compressed then BC5_UNORM else R32G32B32A32_UINT)).

Lemma lod_format_fixup_spec (b : Z) (c : bool) :
  match lod_format_fixup b c with
  | Some f => generic_format_spec b c f
  | None => ~ In b [1; 2; 4; 8; 16]
  end.
Proof.
  unfold lod_format_fixup, generic_format_spec.
  destruct (Z.eqb_spec b 1); [subst; left; auto|].
  destruct (Z.eqb_spec b 2); [subst; right; left; auto|].
  destruct (Z.eqb_spec b 4); [subst; do 2 right; left; auto|].
  destruct (Z.eqb_spec b 8); [subst; do 3 right; left; auto|].
  destruct (Z.eqb_spec b 16); [subst; do 4 right; auto|].
  simpl. intuition.
Qed.

Lemma swr_texture_layout_shape (KX KY : Z) (cso : SWR_SURFACE_STATE -> nat -> Z)
    (res : swr_resource) (allocate : bool) (h : heap) :
  match swr_texture_layout KX KY cso res allocate h with
  | Some (_, r, _) =>
    base r = base res /\ exists f, layout_swr_format (base res) = Some f /\ s_format (swr r) = Some f
  | None => layout_swr_format (base res) = None
  end.
Proof.
  unfold swr_texture_layout.
  destruct (swr_aligns KX KY (base res)) as [ha va].
  destruct (layout_pitch_qpitch KX KY (base res)) as [p q].
  destruct (layout_swr_format (base res)) eqn:F; [|reflexivity].
  destruct (SWR_MAX_TEXTURE_SIZE <? total_size KX KY (base res));
    [split; [reflexivity | eexists; split; reflexivity]|].
  destruct allocate; [|split; [reflexivity | eexists; split; reflexivity]].
  destruct (AlignedMalloc _ 64 h) as [ptr h1].
  destruct (_ && _); [destruct (AlignedMalloc _ 64 h1) as [ptr2 h2]|];
    split; [reflexivity | eexists; split; reflexivity | reflexivity | eexists; split; reflexivity].
Qed.

(** C7 (amended): when the layout format (R8_UINT for a stencil-only
    format, the descriptor's format otherwise) has no SWR format, a layout
    that returns gives the surface the generic format of the layout
    format's block size (1: R8_UINT, 2: R16_UINT, 4: R32_UINT, 8: BC4_UNORM
    if compressed else R32G32_UINT, 16: BC5_UNORM if compressed else
    R32G32B32A32_UINT) and leaves the resource's own format as it was; with
    any other block size the layout reaches [unreachable]. *)
Theorem lod_format_substitution (KX KY : Z) (cso : SWR_SURFACE_STATE -> nat -> Z)
    (res : swr_resource) (allocate : bool) (h : heap) :
  mesa_to_swr_format (layout_format (base res)) = None ->
  match swr_texture_layout KX KY cso res allocate h with
  | Some (_, r, _) =>
    base r = base res /\
    exists f, s_format (swr r) = Some f /\
      generic_format_spec (util_format_get_blocksize (layout_format (base res)))
                          (util_format_is_compressed (layout_format (base res))) f
  | None => ~ In (util_format_get_blocksize (layout_format (base res))) [1; 2; 4; 8; 16]
  end.
Proof.
  intros Hm. pose proof (swr_texture_layout_shape KX KY cso res allocate h) as S.
  assert (F : layout_swr_format (base res) =
              lod_format_fixup (util_format_get_blocksize (layout_format (base res)))
                               (util_format_is_compressed (layout_format (base res))))
    by (unfold layout_swr_format; rewrite Hm; reflexivity).
  pose proof (lod_format_fixup_spec (util_format_get_blocksize (layout_format (base res)))
                (util_format_is_compressed (layout_format (base res)))) as G.
  rewrite <- F in G.
  destruct (swr_texture_layout KX KY cso res allocate h) as [[[ok r] h']|].
  - destruct S as [Sb [f [Sl Sf]]]. split; [exact Sb|].
    rewrite Sl in G. exists f. split; [exact Sf | exact G].
  - rewrite S in G. exact G.
Qed.

Definition dxt1_tex : pipe_resource :=
  texture PIPE_TEXTURE_2D PIPE_FORMAT_DXT1_RGBA 16 16 1 1 2 0.

Lemma lod_format_substitution_witness :
  mesa_to_swr_format (layout_format (base (calloc_resource dxt1_tex))) = None /\
  match swr_texture_layout 1 1 sample_offsets (calloc_resource dxt1_tex) true empty_heap with
  | Some (_, r, _) =>
    base r = base (calloc_resource dxt1_tex) /\
    exists f, s_format (swr r) = Some f /\
      generic_format_spec (util_format_get_blocksize (layout_format (base (calloc_resource dxt1_tex))))
        (util_format_is_compressed (layout_format (base (calloc_resource dxt1_tex)))) f
  | None => ~ In (util_format_get_blocksize (layout_format (base (calloc_resource dxt1_tex))))
                 [1; 2; 4; 8; 16]
  end.
Proof.
  assert (M : mesa_to_swr_format (layout_format (base (calloc_resource dxt1_tex))) = None)
    by reflexivity.
  split; [exact M|].
  exact (lod_format_substitution 1 1 sample_offsets (calloc_resource dxt1_tex) true empty_heap M).
Defined.

Example dxt1_bc4 :
  s_format (swr (run_resource (swr_texture_layout 1 1 sample_offsets (calloc_resource dxt1_tex)
                                 true empty_heap) (calloc_resource dxt1_tex))) = Some BC4_UNORM.
Proof. vm_compute. reflexivity. Qed.

Example r64g64b64_unreachable :
  swr_texture_layout 1 1 sample_offsets
    (calloc_resource (texture PIPE_TEXTURE_2D PIPE_FORMAT_R64G64B64_FLOAT 4 4 1 1 0 0))
    true empty_heap = None.
Proof. vm_compute. reflexivity. Qed.

(** ** C10: displayable resources *)

(** C10: for a displayable texture (display target, scanout or shared),
    once the resource structure is allocated, [swr_resource_create] returns
    NULL exactly when the winsys' display target creation fails: the result
    of [swr_texture_layout], and with it the 4 GiB check, is ignored. *)
Theorem displayable_create_ignores_layout (KX KY : Z) (cso : SWR_SURFACE_STATE -> nat -> Z)
    (templat : pipe_resource) (dt : option Z) (map : Z) (h : heap) :
  swr_resource_is_texture templat = true -> is_displayable templat = true ->
  swr_texture_layout KX KY cso (calloc_resource templat) false h <> None ->
  exists o h', swr_resource_create KX KY cso templat true dt map h = Some (o, h') /\
               (o = None <-> dt = None).
Proof.
  intros Ht Hd Hl. unfold swr_resource_create. rewrite Ht, Hd. simpl negb. cbv iota beta.
  destruct (swr_texture_layout KX KY cso (calloc_resource templat) false h)
    as [[[ok r] h1]|]; [|contradiction].
  destruct dt as [handle|]; simpl.
  - exists (Some (snd (swr_displaytarget_layout r (Some handle) map))), h1.
    split; [reflexivity | split; discriminate].
  - exists None, h1. split; [reflexivity | split; reflexivity].
Qed.

(** A 65536 x 65536 BGRA8 display target: 16 GiB. *)
Definition huge_display : pipe_resource :=
  texture PIPE_TEXTURE_2D PIPE_FORMAT_B8G8R8A8_UNORM 65536 65536 1 1 0 PIPE_BIND_DISPLAY_TARGET.

Example huge_display_refused_by_layout :
  SWR_MAX_TEXTURE_SIZE < total_size 64 64 huge_display /\
  run_ok (swr_texture_layout 64 64 sample_offsets (calloc_resource huge_display) false empty_heap)
  = Some false.
Proof. vm_compute. split; reflexivity. Qed.

Lemma displayable_create_ignores_layout_witness :
  (swr_resource_is_texture huge_display = true /\ is_displayable huge_display = true /\
   swr_texture_layout 64 64 sample_offsets (calloc_resource huge_display) false empty_heap <> None) /\
  exists o h', swr_resource_create 64 64 sample_offsets huge_display true (Some 7) 4096 empty_heap
               = Some (o, h') /\ (o = None <-> Some 7 = None).
Proof.
  assert (A : swr_resource_is_texture huge_display = true) by reflexivity.
  assert (B : is_displayable huge_display = true) by (vm_compute; reflexivity).
  assert (C : swr_texture_layout 64 64 sample_offsets (calloc_resource huge_display) false
                empty_heap <> None) by (vm_compute; discriminate).
  split; [split; [exact A | split; [exact B | exact C]] |].
  exact (displayable_create_ignores_layout 64 64 sample_offsets huge_display (Some 7) 4096
           empty_heap A B C).
Defined.

Example huge_display_created :
  match swr_resource_create 64 64 sample_offsets huge_display true (Some 7) 4096 empty_heap with
  | Some (Some r, _) => display_target r = Some 7 /\ pBaseAddress (swr r) = 4096
  | _ => False
  end.
Proof. vm_compute. split; reflexivity. Qed.

(** * Further properties of the screen's resource functions *)

Lemma AlignedMalloc_spec (size al : Z) (h : heap) :
  0 < al -> 0 <= size ->
  let '(p, h') := AlignedMalloc size al h in
  (p = 0 /\ live h' = live h /\ next_addr h' = next_addr h) \/
  (p = next_addr h /\ live h' = (p, size) :: live h /\ next_addr h < next_addr h').
Proof.
  intros Hal Hs. unfold AlignedMalloc.
  assert (0 <= size / al) by (apply Z.div_pos; lia).
  destruct (malloc_ok h) as [|[|] rest]; cbv beta iota zeta; cbn [live next_addr];
    [right | right | left]; (split; [reflexivity | split; [reflexivity | nia]]).
Qed.

Lemma u64_nonneg (x : Z) : 0 <= u64 x.
Proof. unfold u64. apply Z.mod_pos_bound. lia. Qed.

Lemma u32_nonneg (x : Z) : 0 <= u32 x.
Proof. unfold u32. apply Z.mod_pos_bound. lia. Qed.

Lemma total_size_nonneg (KX KY : Z) (pt : pipe_resource) : 0 <= total_size KX KY pt.
Proof. unfold total_size. destruct (layout_pitch_qpitch KX KY pt). apply u64_nonneg. Qed.

(** X1: whether [swr_texture_layout] accepts a resource does not depend on
    the allocation step nor on the heap: the answer with allocation equals
    the answer without. *)
Theorem layout_ok_allocate_independent (KX KY : Z) (cso : SWR_SURFACE_STATE -> nat -> Z)
    (res : swr_resource) (h1 h2 : heap) :
  run_ok (swr_texture_layout KX KY cso res true h1) =
  run_ok (swr_texture_layout KX KY cso res false h2).
Proof.
  unfold swr_texture_layout.
  destruct (swr_aligns KX KY (base res)) as [ha va].
  destruct (layout_pitch_qpitch KX KY (base res)) as [p q].
  destruct (layout_swr_format (base res)); [|reflexivity].
  destruct (SWR_MAX_TEXTURE_SIZE <? total_size KX KY (base res)); [reflexivity|].
  destruct (AlignedMalloc _ 64 h1) as [ptr h1'].
  destruct (_ && _); [destruct (AlignedMalloc _ 64 h1') as [ptr2 h2']|]; reflexivity.
Qed.

(** X2: for a template that is not displayable, [swr_can_create_resource]
    predicts [swr_resource_create]: once the structure is allocated,
    creation returns a resource exactly when the capability query answers
    true (and both reach [unreachable] together). *)
Theorem can_create_predicts_create (KX KY : Z) (cso : SWR_SURFACE_STATE -> nat -> Z)
    (templat : pipe_resource) (dt : option Z) (map : Z) (h h' : heap) :
  is_displayable templat = false ->
  match swr_can_create_resource KX KY cso templat h,
        swr_resource_create KX KY cso templat true dt map h' with
  | Some b, Some (o, _) => b = true <-> o <> None
  | None, None => True
  | _, _ => False
  end.
Proof.
  intros Hd. pose proof (layout_ok_allocate_independent KX KY cso
                           (calloc_resource templat) h' h) as I.
  unfold swr_can_create_resource, swr_resource_create. rewrite Hd, andb_false_r.
  simpl negb. cbv iota beta.
  destruct (swr_texture_layout KX KY cso (calloc_resource templat) false h)
    as [[[b r] h1]|];
  destruct (swr_texture_layout KX KY cso (calloc_resource templat) true h')
    as [[[b' r'] h1']|]; simpl in I; try discriminate; [|exact Logic.I].
  injection I as E. subst. destruct b; split; intros; congruence.
Qed.

Definition rgba_tex : pipe_resource :=
  texture PIPE_TEXTURE_2D PIPE_FORMAT_R8G8B8A8_UNORM 64 64 1 1 6 PIPE_BIND_SAMPLER_VIEW.

Lemma can_create_predicts_create_witness :
  is_displayable rgba_tex = false /\
  match swr_can_create_resource 64 64 sample_offsets rgba_tex empty_heap,
        swr_resource_create 64 64 sample_offsets rgba_tex true None 0 empty_heap with
  | Some b, Some (o, _) => b = true <-> o <> None
  | None, None => True
  | _, _ => False
  end.
Proof.
  assert (D : is_displayable rgba_tex = false) by reflexivity.
  split; [exact D|].
  exact (can_create_predicts_create 64 64 sample_offsets rgba_tex None 0 empty_heap empty_heap D).
Defined.

(** X3: a template that is not displayable, with a format the layout
    handles, is created (once the structure is allocated) exactly when its
    computed total size is at most 4 GiB; otherwise NULL is returned. *)
Theorem create_null_iff_too_large (KX KY : Z) (cso : SWR_SURFACE_STATE -> nat -> Z)
    (templat : pipe_resource) (dt : option Z) (map : Z) (h : heap) :
  is_displayable templat = false -> layout_swr_format templat <> None ->
  exists o h', swr_resource_create KX KY cso templat true dt map h = Some (o, h') /\
               (o = None <-> SWR_MAX_TEXTURE_SIZE < total_size KX KY templat).
Proof.
  intros Hd Hf. unfold swr_resource_create. rewrite Hd, andb_false_r.
  simpl negb. cbv iota beta. unfold swr_texture_layout at 1. simpl base.
  destruct (swr_aligns KX KY templat) as [ha va].
  destruct (layout_pitch_qpitch KX KY templat) as [p q].
  destruct (layout_swr_format templat) as [sf|]; [|contradiction].
  destruct (SWR_MAX_TEXTURE_SIZE <? total_size KX KY templat) eqn:L.
  - apply Z.ltb_lt in L. eexists _, _. split; [reflexivity | split; auto].
  - apply Z.ltb_ge in L.
    destruct (AlignedMalloc _ 64 h) as [ptr h1].
    destruct (_ && _); [destruct (AlignedMalloc _ 64 h1) as [ptr2 h2]|];
      (eexists _, _; split; [reflexivity | split; [discriminate | lia]]).
Qed.

Lemma create_null_iff_too_large_witness :
  (is_displayable over_4g = false /\ layout_swr_format over_4g <> None) /\
  exists o h', swr_resource_create 1 1 sample_offsets over_4g true None 0 empty_heap
               = Some (o, h') /\
               (o = None <-> SWR_MAX_TEXTURE_SIZE < total_size 1 1 over_4g).
Proof.
  assert (D : is_displayable over_4g = false) by reflexivity.
  assert (F : layout_swr_format over_4g <> None) by discriminate.
  split; [split; [exact D | exact F] |].
  exact (create_null_iff_too_large 1 1 sample_offsets over_4g None 0 empty_heap D F).
Defined.

(** X4: creating a displayable texture never allocates from the heap: the
    heap is returned unchanged, and a created resource takes its base
    address from the winsys mapping, records the display target and has no
    stencil storage. *)
Theorem displayable_create_no_allocation (KX KY : Z) (cso : SWR_SURFACE_STATE -> nat -> Z)
    (templat : pipe_resource) (calloc_ok : bool) (dt : option Z) (map : Z)
    (h h' : heap) (o : option swr_resource) :
  swr_resource_is_texture templat = true -> is_displayable templat = true ->
  swr_resource_create KX KY cso templat calloc_ok dt map h = Some (o, h') ->
  h' = h /\
  forall r, o = Some r ->
    display_target r = dt /\ pBaseAddress (swr r) = map /\ pBaseAddress (secondary r) = 0.
Proof.
  intros Ht Hd. unfold swr_resource_create. rewrite Ht, Hd.
  destruct calloc_ok; simpl negb; cbv iota beta.
  2: { intros E. injection E as <- <-. split; [reflexivity | discriminate]. }
  unfold swr_texture_layout at 1.
  destruct (swr_aligns KX KY (base (calloc_resource templat))) as [ha va].
  destruct (layout_pitch_qpitch KX KY (base (calloc_resource templat))) as [p q].
  destruct (layout_swr_format (base (calloc_resource templat))) as [sf|]; [|discriminate].
  destruct (SWR_MAX_TEXTURE_SIZE <? total_size KX KY (base (calloc_resource templat)));
    destruct dt as [handle|]; simpl; intros E; injection E as <- <-;
    (split; [reflexivity | intros r E; try discriminate E; injection E as <-;
                           repeat split; reflexivity]).
Qed.

Lemma displayable_create_no_allocation_witness :
  (swr_resource_is_texture huge_display = true /\ is_displayable huge_display = true /\
   swr_resource_create 64 64 sample_offsets huge_display true (Some 7) 4096 empty_heap =
   Some (match swr_resource_create 64 64 sample_offsets huge_display true (Some 7) 4096
                 empty_heap with Some (o, _) => o | None => None end, empty_heap)) /\
  (empty_heap = empty_heap /\
   forall r, match swr_resource_create 64 64 sample_offsets huge_display true (Some 7) 4096
                     empty_heap with Some (o, _) => o | None => None end = Some r ->
     display_target r = Some 7 /\ pBaseAddress (swr r) = 4096 /\ pBaseAddress (secondary r) = 0).
Proof.
  assert (A : swr_resource_is_texture huge_display = true) by reflexivity.
  assert (B : is_displayable huge_display = true) by (vm_compute; reflexivity).
  assert (C : swr_resource_create 64 64 sample_offsets huge_display true (Some 7) 4096 empty_heap =
   Some (match swr_resource_create 64 64 sample_offsets huge_display true (Some 7) 4096
                 empty_heap with Some (o, _) => o | None => None end, empty_heap))
    by (vm_compute; reflexivity).
  split; [split; [exact A | split; [exact B | exact C]] |].
  exact (displayable_create_no_allocation 64 64 sample_offsets huge_display true (Some 7) 4096
           empty_heap empty_heap _ A B C).
Defined.

(** X5: an accepted layout with allocation of a format without combined
    depth and stencil makes a single allocation, of [total_size] bytes:
    either it failed and the base address is NULL with the heap's blocks
    unchanged, or the base address is the new block of that size. *)
Theorem layout_single_allocation (KX KY : Z) (cso : SWR_SURFACE_STATE -> nat -> Z)
    (res : swr_resource) (h : heap) (r : swr_resource) (h' : heap) :
  swr_texture_layout KX KY cso res true h = Some (true, r, h') ->
  depth_stencil (format (base res)) = false ->
  (pBaseAddress (swr r) = 0 /\ live h' = live h) \/
  (pBaseAddress (swr r) = next_addr h /\
   live h' = (next_addr h, total_size KX KY (base res)) :: live h).
Proof.
  unfold depth_stencil, swr_texture_layout. intros E Hds. revert E. rewrite Hds.
  destruct (swr_aligns KX KY (base res)) as [ha va].
  destruct (layout_pitch_qpitch KX KY (base res)) as [p q].
  destruct (layout_swr_format (base res)); [|discriminate].
  destruct (SWR_MAX_TEXTURE_SIZE <? total_size KX KY (base res)); [discriminate|].
  pose proof (AlignedMalloc_spec (total_size KX KY (base res)) 64 h) as S.
  destruct (AlignedMalloc (total_size KX KY (base res)) 64 h) as [ptr h1].
  intros E. injection E as <- <-. cbn [swr set_base pBaseAddress].
  destruct S as [[-> [L _]]|[-> [L _]]]; [lia | apply total_size_nonneg | left | right]; auto.
Qed.

Lemma layout_single_allocation_witness :
  (swr_texture_layout 1 1 sample_offsets (calloc_resource tex16) true empty_heap =
   Some (true, run_resource (swr_texture_layout 1 1 sample_offsets (calloc_resource tex16) true
                               empty_heap) (calloc_resource tex16),
         run_heap (swr_texture_layout 1 1 sample_offsets (calloc_resource tex16) true empty_heap))
   /\ depth_stencil (format (base (calloc_resource tex16))) = false) /\
  let r := run_resource (swr_texture_layout 1 1 sample_offsets (calloc_resource tex16) true
                           empty_heap) (calloc_resource tex16) in
  let h' := run_heap (swr_texture_layout 1 1 sample_offsets (calloc_resource tex16) true
                        empty_heap) in
  (pBaseAddress (swr r) = 0 /\ live h' = live empty_heap) \/
  (pBaseAddress (swr r) = next_addr empty_heap /\
   live h' = (next_addr empty_heap, total_size 1 1 (base (calloc_resource tex16)))
             :: live empty_heap).
Proof.
  assert (E : swr_texture_layout 1 1 sample_offsets (calloc_resource tex16) true empty_heap =
   Some (true, run_resource (swr_texture_layout 1 1 sample_offsets (calloc_resource tex16) true
                               empty_heap) (calloc_resource tex16),
         run_heap (swr_texture_layout 1 1 sample_offsets (calloc_resource tex16) true
                     empty_heap))) by (vm_compute; reflexivity).
  assert (D : depth_stencil (format (base (calloc_resource tex16))) = false) by reflexivity.
  split; [split; [exact E | exact D] |].
  exact (layout_single_allocation 1 1 sample_offsets (calloc_resource tex16) empty_heap _ _ E D).
Defined.

Lemma AlignedFree_live (p : Z) (h : heap) :
  live (AlignedFree p h) = if p =? 0 then live h else remove_block p (live h).
Proof. unfold AlignedFree. destruct (p =? 0); reflexivity. Qed.

(** X6: destroying a resource created without a display target gives back
    every block its creation allocated: the heap's live blocks are those
    before the creation, whatever allocations failed (as long as the heap
    never hands out address 0). *)
Theorem create_destroy_no_leak (KX KY : Z) (cso : SWR_SURFACE_STATE -> nat -> Z)
    (templat : pipe_resource) (dt : option Z) (map : Z) (h : heap) (r : swr_resource)
    (h1 : heap) (has_pipe in_use fence_pending : bool) :
  is_displayable templat = false -> 0 < next_addr h ->
  swr_resource_create KX KY cso templat true dt map h = Some (Some r, h1) ->
  live (snd (swr_resource_destroy has_pipe in_use fence_pending r h1)) = live h.
Proof.
  intros Hd Hn. unfold swr_resource_create. rewrite Hd, andb_false_r.
  simpl negb. cbv iota beta. unfold swr_texture_layout at 1.
  destruct (swr_aligns KX KY (base (calloc_resource templat))) as [ha va].
  destruct (layout_pitch_qpitch KX KY (base (calloc_resource templat))) as [p q].
  destruct (layout_swr_format (base (calloc_resource templat))) as [sf|]; [|discriminate].
  destruct (SWR_MAX_TEXTURE_SIZE <? total_size KX KY (base (calloc_resource templat)));
    [discriminate|].
  match goal with |- context [AlignedMalloc ?sz 64 h] =>
    pose proof (AlignedMalloc_spec sz 64 h) as S1;
    destruct (AlignedMalloc sz 64 h) as [ptr h2] end.
  destruct S1 as [[P1 [L1 N1]]|[P1 [L1 N1]]]; [lia | apply total_size_nonneg | |];
  (destruct (_ && _);
   [match goal with |- context [AlignedMalloc ?sz 64 h2] =>
      pose proof (AlignedMalloc_spec sz 64 h2) as S2;
      destruct (AlignedMalloc sz 64 h2) as [ptr2 h3] end;
    destruct S2 as [[P2 [L2 N2]]|[P2 [L2 N2]]]; [lia | apply u32_nonneg | |] |]);
  intros E; injection E as <- <-; unfold swr_resource_destroy; cbn [display_target];
  cbn [swr secondary set_base set_format_pitch pBaseAddress zero_surface calloc_resource];
  destruct (_ && _); cbn [snd].
  all: rewrite !AlignedFree_live.
  all: repeat (rewrite ?L2, ?L1; subst; cbn [remove_block];
               match goal with |- context [?a =? ?b] => destruct (Z.eqb_spec a b); try lia end).
  all: try congruence.
Qed.

Definition created (o : option (option swr_resource * heap)) (dflt : swr_resource)
  : swr_resource * heap :=
  match o with Some (Some r, h) => (r, h) | _ => (dflt, empty_heap) end.

Lemma create_destroy_no_leak_witness :
  let o := swr_resource_create 64 64 sample_offsets zs_tex true None 0 empty_heap in
  let r := fst (created o (calloc_resource zs_tex)) in
  let h1 := snd (created o (calloc_resource zs_tex)) in
  (is_displayable zs_tex = false /\ 0 < next_addr empty_heap /\ o = Some (Some r, h1)) /\
  live (snd (swr_resource_destroy true true false r h1)) = live empty_heap.
Proof.
  intros o r h1.
  assert (E : o = Some (Some r, h1)) by (vm_compute; reflexivity).
  assert (D : is_displayable zs_tex = false) by reflexivity.
  assert (N : 0 < next_addr empty_heap) by (cbn; lia).
  split; [split; [exact D | split; [exact N | exact E]] |].
  exact (create_destroy_no_leak 64 64 sample_offsets zs_tex None 0 empty_heap r h1
           true true false D N E).
Defined.

(** X7: when the resource is still in use by the pipe, no storage is
    released (no [Free] and no [displaytarget_destroy]) before the fence
    has been waited for: every releasing call comes after [FenceFinish]. *)
Theorem destroy_release_after_fence (has_pipe in_use fence_pending : bool)
    (spr : swr_resource) (h : heap) (pre post : list event) (e : event) :
  has_pipe && in_use = true ->
  fst (swr_resource_destroy has_pipe in_use fence_pending spr h) = pre ++ e :: post ->
  is_release e = true ->
  In FenceFinish pre.
Proof.
  intros U. unfold swr_resource_destroy. rewrite U.
  destruct fence_pending, (display_target spr); cbn [fst];
    destruct pre as [|a [|b [|c pre]]]; intros E R; cbn in E;
    injection E; intros; subst; cbn in *; try discriminate R; tauto.
Qed.

Lemma destroy_release_after_fence_witness :
  (true && true = true /\
   fst (swr_resource_destroy true true false (calloc_resource tex16) empty_heap) =
     [FenceSubmit; FenceFinish; ResourceUnused] ++ Free 0 :: [Free 0] /\
   is_release (Free 0) = true) /\
  In FenceFinish [FenceSubmit; FenceFinish; ResourceUnused].
Proof.
  assert (U : true && true = true) by reflexivity.
  assert (E : fst (swr_resource_destroy true true false (calloc_resource tex16) empty_heap) =
     [FenceSubmit; FenceFinish; ResourceUnused] ++ Free 0 :: [Free 0]) by reflexivity.
  assert (R : is_release (Free 0) = true) by reflexivity.
  split; [split; [exact U | split; [exact E | exact R]] |].
  exact (destroy_release_after_fence true true false (calloc_resource tex16) empty_heap
           _ _ _ U E R).
Defined.

(** X8: [swr_resource_destroy] calls the winsys' [displaytarget_destroy]
    exactly for resources that hold a display target, with that target. *)
Theorem destroy_displaytarget_iff (has_pipe in_use fence_pending : bool)
    (spr : swr_resource) (h : heap) (d : Z) :
  In (DisplaytargetDestroy d) (fst (swr_resource_destroy has_pipe in_use fence_pending spr h))
  <-> display_target spr = Some d.
Proof.
  unfold swr_resource_destroy.
  destruct (has_pipe && in_use), fence_pending, (display_target spr) as [d'|];
    cbn; split; intros H; intuition (try congruence).
Qed.

(** X9: the storage of a display target belongs to the winsys: destroying
    a resource that holds one frees only its secondary surface, never the
    mapped primary one, and leaves the heap as that single free does. *)
Theorem destroy_displaytarget_frees_secondary_only (has_pipe in_use fence_pending : bool)
    (spr : swr_resource) (h : heap) (d : Z) :
  display_target spr = Some d ->
  (forall p, In (Free p) (fst (swr_resource_destroy has_pipe in_use fence_pending spr h)) ->
             p = pBaseAddress (secondary spr)) /\
  snd (swr_resource_destroy has_pipe in_use fence_pending spr h) =
    AlignedFree (pBaseAddress (secondary spr)) h.
Proof.
  intros D. unfold swr_resource_destroy. rewrite D. cbn [fst snd]. split; [|reflexivity].
  intros p. rewrite !in_app_iff. cbn.
  destruct (has_pipe && in_use), fence_pending; cbn; intuition (try congruence).
Qed.

Lemma destroy_displaytarget_frees_secondary_only_witness :
  let spr := snd (swr_displaytarget_layout (calloc_resource tex16) (Some 7) 4096) in
  display_target spr = Some 7 /\
  ((forall p, In (Free p) (fst (swr_resource_destroy true true true spr empty_heap)) ->
              p = pBaseAddress (secondary spr)) /\
   snd (swr_resource_destroy true true true spr empty_heap) =
     AlignedFree (pBaseAddress (secondary spr)) empty_heap).
Proof.
  intros spr.
  assert (D : display_target spr = Some 7) by reflexivity.
  split; [exact D |].
  exact (destroy_displaytarget_frees_secondary_only true true true spr empty_heap 7 D).
Defined.

(** X10: a format the screen accepts as a render target is a 1x1-block
    colour format with an SWR format of its own, and a texture of that
    format is laid out with that very SWR format (no fix-up). *)
Theorem render_target_supported_layout (dt_supported : Z -> pipe_format -> bool)
    (s3tc_enabled : bool) (f : pipe_format) (t : pipe_texture_target)
    (sample_count bind0 : Z) (pt : pipe_resource) :
  swr_is_format_supported dt_supported s3tc_enabled f t sample_count bind0 = true ->
  has_bind bind0 PIPE_BIND_RENDER_TARGET = true ->
  format pt = f ->
  colorspace_is_zs f = false /\
  util_format_get_blockwidth f = 1 /\ util_format_get_blockheight f = 1 /\
  layout_format pt = f /\
  layout_swr_format pt = mesa_to_swr_format f /\ mesa_to_swr_format f <> None.
Proof.
  intros S R F. unfold swr_is_format_supported in S. rewrite R in S.
  destruct (1 <? sample_count); [discriminate|].
  destruct (_ && negb (dt_supported bind0 f)); [discriminate|].
  cbn [andb] in S.
  destruct (colorspace_is_zs f) eqn:Z; [discriminate|].
  destruct (swr_unmapped f) eqn:U; [discriminate|].
  destruct (fd_blockwidth (util_format_description f) =? 1) eqn:W; [|discriminate].
  destruct (fd_blockheight (util_format_description f) =? 1) eqn:H; [|discriminate].
  apply Z.eqb_eq in W, H.
  assert (L : layout_format pt = f).
  { unfold layout_format. rewrite F. unfold colorspace_is_zs in Z.
    apply orb_false_iff in Z as [_ Z]. rewrite Z. reflexivity. }
  unfold swr_unmapped in U.
  destruct (mesa_to_swr_format f) as [sf|] eqn:M; [|discriminate].
  repeat split; try assumption.
  - unfold layout_swr_format. rewrite L, M. reflexivity.
  - discriminate.
Qed.

Lemma render_target_supported_layout_witness :
  (swr_is_format_supported (fun _ _ => false) false PIPE_FORMAT_R8G8B8A8_UNORM
     PIPE_TEXTURE_2D 1 PIPE_BIND_RENDER_TARGET = true /\
   has_bind PIPE_BIND_RENDER_TARGET PIPE_BIND_RENDER_TARGET = true /\
   format tex16 = PIPE_FORMAT_R8G8B8A8_UNORM) /\
  colorspace_is_zs PIPE_FORMAT_R8G8B8A8_UNORM = false /\
  util_format_get_blockwidth PIPE_FORMAT_R8G8B8A8_UNORM = 1 /\
  util_format_get_blockheight PIPE_FORMAT_R8G8B8A8_UNORM = 1 /\
  layout_format tex16 = PIPE_FORMAT_R8G8B8A8_UNORM /\
  layout_swr_format tex16 = mesa_to_swr_format PIPE_FORMAT_R8G8B8A8_UNORM /\
  mesa_to_swr_format PIPE_FORMAT_R8G8B8A8_UNORM <> None.
Proof.
  assert (S : swr_is_format_supported (fun _ _ => false) false PIPE_FORMAT_R8G8B8A8_UNORM
     PIPE_TEXTURE_2D 1 PIPE_BIND_RENDER_TARGET = true) by (vm_compute; reflexivity).
  assert (R : has_bind PIPE_BIND_RENDER_TARGET PIPE_BIND_RENDER_TARGET = true)
    by reflexivity.
  assert (F : format tex16 = PIPE_FORMAT_R8G8B8A8_UNORM) by reflexivity.
  split; [split; [exact S | split; [exact R | exact F]] |].
  exact (render_target_supported_layout _ _ _ _ _ _ tex16 S R F).
Defined.

(** Every stencil-only format lacks an SWR format of its own. *)
Lemma stencil_only_unmapped (f : pipe_format) :
  stencil_only f = true -> mesa_to_swr_format f = None.
Proof. destruct f; cbv; first [reflexivity | discriminate]. Qed.

(** X11: a format the screen accepts as a depth-stencil target has a depth
    channel (stencil-only formats are refused) and an SWR format of its own,
    and a texture of that format is laid out with that SWR format, without
    the R8_UINT substitution. *)
Theorem depth_stencil_supported_layout (dt_supported : Z -> pipe_format -> bool)
    (s3tc_enabled : bool) (f : pipe_format) (t : pipe_texture_target)
    (sample_count bind0 : Z) (pt : pipe_resource) :
  swr_is_format_supported dt_supported s3tc_enabled f t sample_count bind0 = true ->
  has_bind bind0 PIPE_BIND_DEPTH_STENCIL = true ->
  format pt = f ->
  util_format_has_depth (util_format_description f) = true /\
  layout_format pt = f /\
  layout_swr_format pt = mesa_to_swr_format f /\ mesa_to_swr_format f <> None.
Proof.
  intros S D F. unfold swr_is_format_supported in S. rewrite D in S.
  destruct (1 <? sample_count); [discriminate|].
  destruct (_ && negb (dt_supported bind0 f)); [discriminate|].
  destruct (has_bind bind0 PIPE_BIND_RENDER_TARGET && _); [discriminate|].
  cbn [andb] in S.
  destruct (colorspace_is_zs f) eqn:Z; [|discriminate].
  destruct (swr_unmapped f) eqn:U; [discriminate|].
  unfold swr_unmapped in U.
  destruct (mesa_to_swr_format f) as [sf|] eqn:M; [|discriminate].
  assert (HD : util_format_has_depth (util_format_description f) = true).
  { destruct (util_format_has_depth (util_format_description f)) eqn:HD; [reflexivity|].
    unfold colorspace_is_zs in Z. rewrite HD in Z. cbn in Z.
    assert (SO : stencil_only f = true).
    { unfold stencil_only. rewrite Z, HD. reflexivity. }
    apply stencil_only_unmapped in SO. congruence. }
  assert (L : layout_format pt = f).
  { unfold layout_format. rewrite F, HD, andb_false_r. reflexivity. }
  repeat split; try assumption.
  - unfold layout_swr_format. rewrite L, M. reflexivity.
  - discriminate.
Qed.

Lemma depth_stencil_supported_layout_witness :
  (swr_is_format_supported (fun _ _ => false) false PIPE_FORMAT_Z24_UNORM_S8_UINT
     PIPE_TEXTURE_2D 1 PIPE_BIND_DEPTH_STENCIL = true /\
   has_bind PIPE_BIND_DEPTH_STENCIL PIPE_BIND_DEPTH_STENCIL = true /\
   format zs_tex = PIPE_FORMAT_Z24_UNORM_S8_UINT) /\
  util_format_has_depth (util_format_description PIPE_FORMAT_Z24_UNORM_S8_UINT) = true /\
  layout_format zs_tex = PIPE_FORMAT_Z24_UNORM_S8_UINT /\
  layout_swr_format zs_tex = mesa_to_swr_format PIPE_FORMAT_Z24_UNORM_S8_UINT /\
  mesa_to_swr_format PIPE_FORMAT_Z24_UNORM_S8_UINT <> None.
Proof.
  assert (S : swr_is_format_supported (fun _ _ => false) false PIPE_FORMAT_Z24_UNORM_S8_UINT
     PIPE_TEXTURE_2D 1 PIPE_BIND_DEPTH_STENCIL = true) by (vm_compute; reflexivity).
  assert (D : has_bind PIPE_BIND_DEPTH_STENCIL PIPE_BIND_DEPTH_STENCIL = true)
    by reflexivity.
  assert (F : format zs_tex = PIPE_FORMAT_Z24_UNORM_S8_UINT) by reflexivity.
  split; [split; [exact S | split; [exact D | exact F]] |].
  exact (depth_stencil_supported_layout _ _ _ _ _ _ zs_tex S D F).
Defined.

(** X12: a format the screen accepts is never sampled with more than one
    sample, and an S3TC-compressed one is accepted only when S3TC support
    is enabled. *)
Theorem supported_single_sample_s3tc (dt_supported : Z -> pipe_format -> bool)
    (s3tc_enabled : bool) (f : pipe_format) (t : pipe_texture_target)
    (sample_count bind0 : Z) :
  swr_is_format_supported dt_supported s3tc_enabled f t sample_count bind0 = true ->
  sample_count <= 1 /\
  (format_layout f = UTIL_FORMAT_LAYOUT_S3TC -> s3tc_enabled = true).
Proof.
  intros S. unfold swr_is_format_supported in S.
  destruct (1 <? sample_count) eqn:C; [discriminate|]. apply Z.ltb_ge in C.
  split; [exact C|]. intros L. rewrite L in S. cbn [layout_eqb orb andb] in S.
  repeat match type of S with
  | (if ?b then _ else _) = _ => destruct b; [discriminate|]
  end.
  exact S.
Qed.

Lemma supported_single_sample_s3tc_witness :
  swr_is_format_supported (fun _ _ => false) true PIPE_FORMAT_DXT1_RGBA
    PIPE_TEXTURE_2D 1 PIPE_BIND_SAMPLER_VIEW = true /\
  (1 <= 1 /\ (format_layout PIPE_FORMAT_DXT1_RGBA = UTIL_FORMAT_LAYOUT_S3TC -> true = true)).
Proof.
  assert (S : swr_is_format_supported (fun _ _ => false) true PIPE_FORMAT_DXT1_RGBA
    PIPE_TEXTURE_2D 1 PIPE_BIND_SAMPLER_VIEW = true) by (vm_compute; reflexivity).
  split; [exact S|].
  exact (supported_single_sample_s3tc _ _ _ _ _ _ S).
Defined.

Lemma layout_display_target (KX KY : Z) (cso : SWR_SURFACE_STATE -> nat -> Z)
    (res r : swr_resource) (alloc ok : bool) (h h' : heap) :
  swr_texture_layout KX KY cso res alloc h = Some (ok, r, h') ->
  display_target r = display_target res.
Proof.
  layout_cases alloc; intros E; injection E; intros; subst; reflexivity.
Qed.

(** X13: once [swr_resource_create] has returned a resource,
    [swr_flush_frontbuffer] presents it on a display target exactly when
    the template was a displayable texture, and then on the target the
    winsys handed out at creation. *)
Theorem create_flush_displays (KX KY : Z) (cso : SWR_SURFACE_STATE -> nat -> Z)
    (templat : pipe_resource) (calloc_ok : bool) (dt : option Z) (map : Z)
    (h h' : heap) (r : swr_resource) (has_pipe : bool) (d : Z) :
  swr_resource_create KX KY cso templat calloc_ok dt map h = Some (Some r, h') ->
  (In (DisplaytargetDisplay d) (swr_flush_frontbuffer has_pipe r) <->
   swr_resource_is_texture templat && is_displayable templat = true /\ dt = Some d).
Proof.
  unfold swr_resource_create.
  destruct calloc_ok; simpl negb; cbv iota beta; [|discriminate].
  assert (F : forall r', In (DisplaytargetDisplay d) (swr_flush_frontbuffer has_pipe r') <->
                         display_target r' = Some d).
  { intros r'. unfold swr_flush_frontbuffer.
    destruct has_pipe, (display_target r'); cbn; intuition congruence. }
  destruct (swr_resource_is_texture templat && is_displayable templat).
  - destruct (swr_texture_layout KX KY cso (calloc_resource templat) false h)
      as [[[ok r1] h1]|]; [|discriminate].
    destruct dt as [handle|]; cbn; intros E; [|discriminate].
    injection E as <- <-. rewrite F. cbn. intuition congruence.
  - destruct (swr_texture_layout KX KY cso (calloc_resource templat) true h)
      as [[[ok r1] h1]|] eqn:L; [|discriminate].
    destruct ok; intros E; [|discriminate]. injection E as <- <-.
    rewrite F. apply layout_display_target in L. rewrite L. cbn. intuition congruence.
Qed.

Lemma create_flush_displays_witness :
  let o := swr_resource_create 64 64 sample_offsets huge_display true (Some 7) 4096
             empty_heap in
  let r := fst (created o (calloc_resource huge_display)) in
  let h1 := snd (created o (calloc_resource huge_display)) in
  o = Some (Some r, h1) /\
  (In (DisplaytargetDisplay 7) (swr_flush_frontbuffer true r) <->
   swr_resource_is_texture huge_display && is_displayable huge_display = true /\
   Some 7 = Some 7).
Proof.
  intros o r h1.
  assert (E : o = Some (Some r, h1)) by (vm_compute; reflexivity).
  split; [exact E |].
  exact (create_flush_displays 64 64 sample_offsets huge_display true (Some 7) 4096
           empty_heap h1 r true 7 E).
Defined.
